(** * The Excel agent of [src/app/page.tsx]: store, view projection, export

    A shallow embedding of the zustand store [useAgentStore], of the derived
    values computed by [useAgent], and of [handleExport]/[downloadWorkbook],
    followed by the properties of the view-state derivation pipeline.

    JavaScript strings are sequences of UTF-16 code units; they are modelled
    as [list N], one number per code unit.  Objects used as dictionaries
    ([Record<string, T>]) are modelled as [gmap] over such strings. *)

From Stdlib Require Import ZArith NArith List Ascii String Decimal DecimalNat.
From stdpp Require Import gmap list sorting.

Local Open Scope N_scope.

(** ** JavaScript strings *)

Abbreviation jsstring := (list N).

(** Reading a source literal: the text of a literal is written here as a Rocq
    string (UTF-8 bytes) and decoded into UTF-16 code units. *)
Fixpoint utf16_of_utf8 (bs : list N) : jsstring :=
  match bs with
  | [] => []
  | b0 :: r0 =>
    if b0 <? 0x80 then b0 :: utf16_of_utf8 r0
    else match r0 with
    | [] => []
    | b1 :: r1 =>
      if b0 <? 0xE0 then
        N.lor (N.shiftl (N.land b0 0x1F) 6) (N.land b1 0x3F) :: utf16_of_utf8 r1
      else match r1 with
      | [] => []
      | b2 :: r2 =>
        if b0 <? 0xF0 then
          N.lor (N.shiftl (N.land b0 0x0F) 12)
                (N.lor (N.shiftl (N.land b1 0x3F) 6) (N.land b2 0x3F))
            :: utf16_of_utf8 r2
        else match r2 with
        | [] => []
        | b3 :: r3 =>
          let cp := N.lor (N.shiftl (N.land b0 0x07) 18)
                   (N.lor (N.shiftl (N.land b1 0x3F) 12)
                   (N.lor (N.shiftl (N.land b2 0x3F) 6) (N.land b3 0x3F))) in
          let v := cp - 0x10000 in
          (0xD800 + N.shiftr v 10) :: (0xDC00 + N.land v 0x3FF) :: utf16_of_utf8 r3
        end
      end
    end
  end.

Definition lit (s : string) : jsstring :=
  utf16_of_utf8 (List.map (fun b => N.of_nat (nat_of_ascii b)) (list_ascii_of_string s)).

(** A string is truthy when it is not empty. *)
Definition truthy (s : jsstring) : bool :=
  match s with [] => false | _ :: _ => true end.

(** The code units removed by [String.prototype.trim]: WhiteSpace and
    LineTerminator of ECMA-262. *)
Definition isWhiteSpace (c : N) : bool :=
  (c =? 0x9) || (c =? 0xA) || (c =? 0xB) || (c =? 0xC) || (c =? 0xD)
  || (c =? 0x20) || (c =? 0xA0) || (c =? 0x1680)
  || ((0x2000 <=? c) && (c <=? 0x200A))
  || (c =? 0x2028) || (c =? 0x2029) || (c =? 0x202F) || (c =? 0x205F)
  || (c =? 0x3000) || (c =? 0xFEFF).

Fixpoint trimStart (s : jsstring) : jsstring :=
  match s with
  | [] => []
  | c :: r => if isWhiteSpace c then trimStart r else s
  end.

Definition trimEnd (s : jsstring) : jsstring := rev (trimStart (rev s)).

Definition trim (s : jsstring) : jsstring := trimEnd (trimStart s).

(** [s.startsWith(t)], [s.endsWith(t)] and [s.includes(t)]. *)
Fixpoint startsWith (s t : jsstring) {struct t} : bool :=
  match t, s with
  | [], _ => true
  | _ :: _, [] => false
  | b :: t', a :: s' => (a =? b) && startsWith s' t'
  end.

Definition endsWith (s t : jsstring) : bool := startsWith (rev s) (rev t).

Fixpoint includes (s t : jsstring) : bool :=
  startsWith s t ||
  match s with
  | [] => false
  | _ :: s' => includes s' t
  end.

(** Template-literal rendering [`${n}`] of an array position: its decimal
    digits (positions stay far below the magnitude at which JavaScript turns
    to exponent notation). *)
Fixpoint digits (d : Decimal.uint) : jsstring :=
  match d with
  | Nil => []
  | D0 r => 48 :: digits r
  | D1 r => 49 :: digits r
  | D2 r => 50 :: digits r
  | D3 r => 51 :: digits r
  | D4 r => 52 :: digits r
  | D5 r => 53 :: digits r
  | D6 r => 54 :: digits r
  | D7 r => 55 :: digits r
  | D8 r => 56 :: digits r
  | D9 r => 57 :: digits r
  end.

Definition decimal (n : nat) : jsstring := digits (Nat.to_uint n).

(** ** Column keys *)

(** [const buildColumnKey = (header, index) =>
      header?.trim() ? `${header.trim()}::${index}` : `ستون-${index + 1}`] *)
Definition buildColumnKey (header : option jsstring) (index : nat) : jsstring :=
  match header with
  | Some h =>
    if truthy (trim h) then trim h ++ lit "::" ++ decimal index
    else lit "ستون-" ++ decimal (index + 1)
  | None => lit "ستون-" ++ decimal (index + 1)
  end.

(** ** Arrays *)

(** [Array.prototype.at]: a negative index counts back from the end. *)
Definition Array_at {A : Type} (l : list A) (index : Z) : option A :=
  let len := Z.of_nat (length l) in
  let k := if (0 <=? index)%Z then index else (len + index)%Z in
  if ((k <? 0) || (len <=? k))%Z then None else l !! Z.to_nat k.

(** ** Objects used as dictionaries *)

(** The property names every object literal inherits from
    [Object.prototype]; reading one of them on an object that has no own
    property of that name yields a function or an object, which is truthy. *)
Definition Object_prototype_names : list jsstring :=
  List.map lit
    ["constructor"; "hasOwnProperty"; "isPrototypeOf"; "propertyIsEnumerable";
     "toLocaleString"; "toString"; "valueOf"; "__proto__";
     "__defineGetter__"; "__defineSetter__"; "__lookupGetter__";
     "__lookupSetter__"]%string.

Definition inherited (k : jsstring) : bool :=
  bool_decide (k ∈ Object_prototype_names).

(** Truthiness of [obj[key]] for a [Record<string, boolean>]. *)
Definition reads_truthy (obj : gmap jsstring bool) (key : jsstring) : bool :=
  match obj !! key with
  | Some b => b
  | None => inherited key
  end.

Section Agent.

(** The cells of a sheet hold strings, numbers, booleans, [null] or
    [undefined].  The number type and its rendering by [String(_)], the
    locale-aware lowercasing and the Unicode normalisation belong to the
    JavaScript runtime; the writer belongs to the xlsx library. *)
Context {number : Type}.
Variable Number_toString : number -> jsstring.
Variable toLocaleLowerCase_fa : jsstring -> jsstring.
Variable normalize_NFKD : jsstring -> jsstring.

Inductive cell : Type :=
  | CString (s : jsstring)
  | CNumber (n : number)
  | CBoolean (b : bool)
  | CNull
  | CUndefined.

Record RawSheetData : Type := {
  name : jsstring;
  headers : list jsstring;
  rows : list (list cell)
}.

Record AgentState : Type := {
  workbookName : jsstring;
  sheets : list RawSheetData;
  activeSheetIndex : Z;
  selectedColumns : gmap jsstring bool;
  columnAliases : gmap jsstring jsstring;
  searchTerm : jsstring
}.

(** ** The store *)

Definition initialState : AgentState :=
  {| workbookName := []; sheets := []; activeSheetIndex := 0%Z;
     selectedColumns := ∅; columnAliases := ∅; searchTerm := [] |}.

(** [headers.forEach((header, idx) => { initialSelectedColumns[key] = true })]
    starting from the object [acc], the first header having position [idx].
    The assignment creates or overwrites an own property: a column key is
    never the name of an accessor of [Object.prototype]
    ([buildColumnKey_not_inherited] below). *)
Fixpoint selectAll (hs : list jsstring) (idx : nat) (acc : gmap jsstring bool)
  : gmap jsstring bool :=
  match hs with
  | [] => acc
  | header :: rest =>
    selectAll rest (S idx) (<[buildColumnKey (Some header) idx := true]> acc)
  end.

(** [setWorkbook].  [headers] has type [string[]], so the fallback on the
    first row in [sheets.at(0)?.headers ?? ...] is taken only when there is
    no first sheet, and then it yields [[]]. *)
Definition setWorkbook (workbookName' : jsstring) (sheets' : list RawSheetData)
    (st : AgentState) : AgentState :=
  let hs := match Array_at sheets' 0 with
            | Some sheet => headers sheet
            | None => []
            end in
  {| workbookName := workbookName'; sheets := sheets'; activeSheetIndex := 0%Z;
     selectedColumns := selectAll hs 0 ∅; columnAliases := ∅;
     searchTerm := [] |}.

Definition setActiveSheetIndex (index : Z) (st : AgentState) : AgentState :=
  match Array_at (sheets st) index with
  | None => st
  | Some sheet =>
    {| workbookName := workbookName st; sheets := sheets st;
       activeSheetIndex := index;
       selectedColumns := selectAll (headers sheet) 0 ∅;
       columnAliases := ∅; searchTerm := [] |}
  end.

Definition toggleColumn (columnKey : jsstring) (st : AgentState) : AgentState :=
  {| workbookName := workbookName st; sheets := sheets st;
     activeSheetIndex := activeSheetIndex st;
     selectedColumns :=
       <[columnKey := negb (reads_truthy (selectedColumns st) columnKey)]>
         (selectedColumns st);
     columnAliases := columnAliases st; searchTerm := searchTerm st |}.

Definition setColumnAlias (columnKey alias : jsstring) (st : AgentState)
  : AgentState :=
  {| workbookName := workbookName st; sheets := sheets st;
     activeSheetIndex := activeSheetIndex st;
     selectedColumns := selectedColumns st;
     columnAliases := <[columnKey := alias]> (columnAliases st);
     searchTerm := searchTerm st |}.

Definition setSearchTerm (term : jsstring) (st : AgentState) : AgentState :=
  {| workbookName := workbookName st; sheets := sheets st;
     activeSheetIndex := activeSheetIndex st;
     selectedColumns := selectedColumns st;
     columnAliases := columnAliases st; searchTerm := term |}.

Definition reset (st : AgentState) : AgentState := initialState.

(** The calls a user can make on a loaded workbook without loading another
    one, and a run of such calls in order. *)
Inductive storeCall : Type :=
  | CallSetActiveSheetIndex (index : Z)
  | CallToggleColumn (columnKey : jsstring)
  | CallSetColumnAlias (columnKey alias : jsstring)
  | CallSetSearchTerm (term : jsstring).

Definition perform (c : storeCall) (st : AgentState) : AgentState :=
  match c with
  | CallSetActiveSheetIndex index => setActiveSheetIndex index st
  | CallToggleColumn columnKey => toggleColumn columnKey st
  | CallSetColumnAlias columnKey alias => setColumnAlias columnKey alias st
  | CallSetSearchTerm term => setSearchTerm term st
  end.

Definition performAll (cs : list storeCall) (st : AgentState) : AgentState :=
  fold_left (fun st' c => perform c st') cs st.

(** ** The view projection of [useAgent] *)

(** [String(value ?? "")] *)
Definition String_of (value : cell) : jsstring :=
  match value with
  | CString s => s
  | CNumber n => Number_toString n
  | CBoolean true => lit "true"
  | CBoolean false => lit "false"
  | CNull | CUndefined => []
  end.

Definition normalizeForSearch (value : cell) : jsstring :=
  normalize_NFKD (toLocaleLowerCase_fa (String_of value)).

Definition activeSheet (st : AgentState) : option RawSheetData :=
  Array_at (sheets st) (activeSheetIndex st).

Definition rowMatches (searchValue : jsstring) (row : list cell) : bool :=
  existsb (fun c => includes (normalizeForSearch c) searchValue) row.

Definition visibleRows (st : AgentState) : list (list cell) :=
  match activeSheet st with
  | None => []
  | Some sheet =>
    if negb (truthy (trim (searchTerm st))) then rows sheet
    else
      let searchValue := normalizeForSearch (CString (searchTerm st)) in
      List.filter (rowMatches searchValue) (rows sheet)
  end.

Definition activeHeaders (st : AgentState) : list jsstring :=
  match activeSheet st with
  | Some sheet => headers sheet
  | None => []
  end.

(** [headers.map(buildColumnKey)] *)
Definition keysOf (hs : list jsstring) : list jsstring :=
  imap (fun idx header => buildColumnKey (Some header) idx) hs.

Definition columnKeys (st : AgentState) : list jsstring :=
  keysOf (activeHeaders st).

Definition selectedColumnIndices (st : AgentState) : list nat :=
  List.map snd
    (List.filter (fun p => reads_truthy (selectedColumns st) (fst p))
       (imap (fun idx key => (key, idx)) (columnKeys st))).

(** [store.columnAliases[key]?.trim() || headers[idx] || `ستون ${idx + 1}`].
    [columnKeys[idx]] out of range would be [undefined], read as the property
    name "undefined". *)
Definition headerCell (st : AgentState) (idx : nat) : jsstring :=
  let key := default (lit "undefined") (columnKeys st !! idx) in
  let alias := match columnAliases st !! key with
               | Some a => trim a
               | None => []
               end in
  if truthy alias then alias
  else
    let header := default [] (activeHeaders st !! idx) in
    if truthy header then header
    else lit "ستون " ++ decimal (idx + 1).

(** [row[idx] ?? ""] *)
Definition cellAt (row : list cell) (idx : nat) : cell :=
  match row !! idx with
  | Some CNull | Some CUndefined | None => CString []
  | Some c => c
  end.

Definition rowsForExport (st : AgentState) : list (list cell) :=
  match activeSheet st with
  | None => []
  | Some sheet =>
    if (length (selectedColumnIndices st) =? 0)%nat then []
    else
      let headerRow :=
        List.map (fun idx => CString (headerCell st idx))
          (selectedColumnIndices st) in
      let dataRows :=
        List.map (fun row => List.map (cellAt row) (selectedColumnIndices st))
          (visibleRows st) in
      headerRow :: dataRows
  end.

(** ** The projection as the specification words it

    These definitions follow the specification, not the code; the theorems
    below compare them with [visibleRows] and [rowsForExport]. *)

(** [t] occurs in [s] as a substring. *)
Definition occursIn (t s : jsstring) : Prop :=
  exists pre post, s = pre ++ t ++ post.

(** The string form of a value: a string is itself, a number and a boolean
    are written out, an absent or [null] value is the empty string. *)
Definition spec_stringForm (value : cell) : jsstring :=
  match value with
  | CNull | CUndefined => []
  | CString s => s
  | CNumber n => Number_toString n
  | CBoolean b => if b then lit "true" else lit "false"
  end.

(** The normalised string form: the string form, lowercased by the locale,
    then Unicode-normalised. *)
Definition spec_normalForm (value : cell) : jsstring :=
  normalize_NFKD (toLocaleLowerCase_fa (spec_stringForm value)).

(** At least one cell of the row contains the search term, both in
    normalised string form. *)
Definition rowHasMatch (term : jsstring) (row : list cell) : Prop :=
  exists c, c ∈ row /\
    occursIn (normalize_NFKD (toLocaleLowerCase_fa term)) (spec_normalForm c).

(** [kept] is exactly the order-preserving subsequence of [all] made of the
    elements that satisfy [P]. *)
Inductive keptInOrder {A : Type} (P : A -> Prop) : list A -> list A -> Prop :=
  | kept_nil : keptInOrder P [] []
  | kept_take x all kept :
      P x -> keptInOrder P all kept -> keptInOrder P (x :: all) (x :: kept)
  | kept_drop x all kept :
      ~ P x -> keptInOrder P all kept -> keptInOrder P (x :: all) kept.

(** Selected column indices: the positions, in ascending order, whose column
    key reads as selected. *)
Definition spec_selectedIndices (st : AgentState) (sheet : RawSheetData)
  : list nat :=
  List.filter
    (fun idx => reads_truthy (selectedColumns st)
                  (buildColumnKey (headers sheet !! idx) idx))
    (seq 0 (length (headers sheet))).

(** Header entry: the trimmed alias if it is not empty, else the header text
    if it is not empty, else the 1-based placeholder. *)
Definition spec_headerEntry (st : AgentState) (sheet : RawSheetData)
    (idx : nat) : jsstring :=
  let key := buildColumnKey (headers sheet !! idx) idx in
  match trim <$> columnAliases st !! key with
  | Some (c :: alias) => c :: alias
  | _ =>
    match headers sheet !! idx with
    | Some (c :: header) => c :: header
    | _ => lit "ستون " ++ decimal (idx + 1)
    end
  end.

(** Data cell: the value of the cell, the empty string when it is absent. *)
Definition spec_dataCell (row : list cell) (idx : nat) : cell :=
  match row !! idx with
  | Some (CString s) => CString s
  | Some (CNumber n) => CNumber n
  | Some (CBoolean b) => CBoolean b
  | Some CNull | Some CUndefined | None => CString []
  end.

Definition spec_exportMatrix (st : AgentState) (sheet : RawSheetData)
  : list (list cell) :=
  List.map (fun idx => CString (spec_headerEntry st sheet idx))
    (spec_selectedIndices st sheet)
  :: List.map (fun row => List.map (spec_dataCell row)
                            (spec_selectedIndices st sheet))
       (visibleRows st).

(** ** Export *)

(** The one call into the xlsx writer: the sheet label, the rows of the
    sheet and the file name given to [XLSX.writeFile]. *)
Inductive writerCall : Type :=
  WriteFile (sheetName : jsstring) (aoa : list (list cell)) (filename : jsstring).

(** Whether the writer throws on a call. *)
Variable XLSX_throws : writerCall -> bool.

Definition exportName (filename : jsstring) : jsstring :=
  if endsWith filename (lit ".xlsx") then filename
  else filename ++ lit ".xlsx".

Definition downloadWorkbook (rs : list (list cell)) (filename : jsstring)
  : writerCall :=
  WriteFile (lit "نتیجه") rs (exportName filename).

(** The component state of [ExcelAgent] that [handleExport] touches. *)
Record ExportUi : Type := {
  exportFilename : jsstring;
  isExporting : bool;
  error : option jsstring
}.

Definition emptyExportMessage : jsstring :=
  lit "ستونی برای خروجی انتخاب نشده است یا داده‌ای برای ذخیره وجود ندارد.".

Definition writeFailedMessage : jsstring :=
  lit "در ذخیره فایل مشکلی پیش آمد. دوباره تلاش کنید.".

(** [handleExport]: the component state after the handler and the calls made
    to the writer, in order. *)
Definition handleExport (st : AgentState) (ui : ExportUi)
  : ExportUi * list writerCall :=
  if (length (rowsForExport st) =? 0)%nat then
    ({| exportFilename := exportFilename ui; isExporting := isExporting ui;
        error := Some emptyExportMessage |}, [])
  else
    let call := downloadWorkbook (rowsForExport st) (exportFilename ui) in
    if XLSX_throws call then
      ({| exportFilename := exportFilename ui; isExporting := false;
          error := Some writeFailedMessage |}, [call])
    else
      ({| exportFilename := exportFilename ui; isExporting := false;
          error := None |}, [call]).

End Agent.

Arguments lit : simpl never.
Arguments buildColumnKey : simpl never.
Arguments decimal : simpl never.

(** ** A workbook to run the definitions on

    Numbers are integers here, rendered in decimal as [String(_)] renders
    them; lowercasing is done on the letters A to Z and normalisation leaves
    a string as it is, which is what the runtime does on ASCII text. *)

Definition exampleSheet : @RawSheetData Z :=
  {| name := lit "Sheet1";
     headers := [lit "Name"; []];
     rows := [[CString (lit "Ali"); CNumber 5%Z];
              [CString (lit "Reza"); CNumber 7%Z]] |}.

Definition emptySheet : @RawSheetData Z :=
  {| name := lit "Sheet2"; headers := [lit "A"]; rows := [] |}.

Definition exampleState : @AgentState Z :=
  setWorkbook (lit "book.xlsx") [exampleSheet; emptySheet] initialState.

Definition emptySheetState : @AgentState Z :=
  setActiveSheetIndex 1 exampleState.

Definition renderZ (z : Z) : jsstring :=
  (if (z <? 0)%Z then lit "-" else []) ++ decimal (Z.abs_nat z).

Definition asciiLower (s : jsstring) : jsstring :=
  List.map (fun c => if (65 <=? c) && (c <=? 90) then c + 32 else c) s.

Definition asIs (s : jsstring) : jsstring := s.

Definition neverThrows (c : @writerCall Z) : bool := false.

(** The example workbook with "ali" typed in the search box, with a blank
    alias on the first column, with the second column deselected, and the
    second sheet with its only column deselected. *)
Definition searchAliState : @AgentState Z :=
  setSearchTerm (lit "ali") exampleState.

Definition blankAliasState : @AgentState Z :=
  setColumnAlias (lit "Name::0") (lit "  ") exampleState.

Definition oneColumnState : @AgentState Z :=
  toggleColumn (lit "ستون-2") exampleState.

Definition nothingSelectedState : @AgentState Z :=
  toggleColumn (lit "A::0") emptySheetState.

Definition exampleUi : ExportUi :=
  {| exportFilename := lit "نتیجه"; isExporting := false; error := None |}.

(** ** The rest of the component

    The values [useAgent] derives beside the export matrix, the part of
    [readWorkbookFile] that follows the call into the xlsx parser, the data
    shown by the preview table and the handlers the rendered controls fire. *)

Section Component.

Context {number : Type}.
Variable Number_toString : number -> jsstring.
Variable toLocaleLowerCase_fa : jsstring -> jsstring.
Variable normalize_NFKD : jsstring -> jsstring.
Variable XLSX_throws : @writerCall number -> bool.

(** [hasWorkbook: Boolean(store.sheets.length)],
    [selectedColumnCount: selectedColumnIndices.length],
    [visibleRowCount: visibleRows.length]. *)
Definition hasWorkbook (st : @AgentState number) : bool :=
  negb (length (sheets st) =? 0)%nat.

Definition selectedColumnCount (st : @AgentState number) : nat :=
  length (selectedColumnIndices st).

Definition visibleRowCount (st : @AgentState number) : nat :=
  length (visibleRows Number_toString toLocaleLowerCase_fa normalize_NFKD st).

(** What [XLSX.read] and [sheet_to_json] hand over: for every sheet name, in
    order, the rows of the sheet as arrays of cells. *)
Definition parsedWorkbook : Type := list (jsstring * list (list (@cell number))).

(** [(cell, idx) => { const value = String(cell ?? "").trim();
                      return value || `ستون ${idx + 1}`; }] *)
Definition headerOfCell (idx : nat) (c : @cell number) : jsstring :=
  let value := trim (String_of Number_toString c) in
  if truthy value then value else lit "ستون " ++ decimal (idx + 1).

(** One sheet of [readWorkbookFile]: [rows.shift()] takes the first row off;
    on an empty sheet it yields [undefined], replaced by [[]]. *)
Definition sheetOfRows (sheetName : jsstring) (rs : list (list (@cell number)))
  : @RawSheetData number :=
  match rs with
  | [] => {| name := sheetName; headers := []; rows := [] |}
  | first :: rest =>
    {| name := sheetName; headers := imap headerOfCell first; rows := rest |}
  end.

Definition readWorkbookFile (wb : parsedWorkbook) : list (@RawSheetData number) :=
  List.map (fun p => sheetOfRows (fst p) (snd p)) wb.

(** The preview table: [activeSheet.rows.slice(0, 8)], every cell shown as
    [String(cell ?? "")]. *)
Definition previewRows (st : @AgentState number) : list (list jsstring) :=
  match activeSheet st with
  | Some sheet =>
    List.map (List.map (String_of Number_toString)) (take 8 (rows sheet))
  | None => []
  end.

(** The sheet tab drawn as active: [index === activeSheetIndex]. *)
Definition tabHighlighted (st : @AgentState number) (index : nat) : bool :=
  (Z.of_nat index =? activeSheetIndex st)%Z.

(** The component: the store, the local state of [ExcelAgent] and the calls
    made to the writer so far. *)
Record Component : Type := {
  store : @AgentState number;
  ui : ExportUi;
  written : list (@writerCall number)
}.

Definition initialUi : ExportUi :=
  {| exportFilename := lit "نتیجه"; isExporting := false; error := None |}.

Definition initialComponent : Component :=
  {| store := initialState; ui := initialUi; written := [] |}.

Definition readFailedMessage : jsstring :=
  lit "مشکلی در خواندن فایل رخ داد. لطفاً دوباره تلاش کنید.".

(** [handleFileChange].  [file] is [None] when the picker holds no file;
    otherwise it gives the file name and what the parser returns, [None]
    when reading or parsing throws. *)
Definition handleFileChange (file : option (jsstring * option parsedWorkbook))
    (c : Component) : Component :=
  match file with
  | None => c
  | Some (fileName, Some wb) =>
    {| store := setWorkbook fileName (readWorkbookFile wb) (store c);
       ui := {| exportFilename := exportFilename (ui c);
                isExporting := isExporting (ui c); error := None |};
       written := written c |}
  | Some (fileName, None) =>
    {| store := store c;
       ui := {| exportFilename := exportFilename (ui c);
                isExporting := isExporting (ui c);
                error := Some readFailedMessage |};
       written := written c |}
  end.

(** The panel with the tabs, the search box, the table and the export
    settings is rendered under [hasWorkbook && activeSheet]. *)
Definition panelShown (st : @AgentState number) : bool :=
  hasWorkbook st && bool_decide (is_Some (activeSheet st)).

(** What the user can do with the rendered controls.  Tabs are drawn by
    [sheets.map], check boxes and alias inputs by [columnKeys.map], so each
    carries a position; the reset button is drawn under [hasWorkbook]; an
    alias input is disabled while its column is not selected, the export
    button while [isExporting]. *)
Inductive event : Type :=
  | FileChosen (file : option (jsstring * option parsedWorkbook))
  | ResetClicked
  | TabClicked (index : nat)
  | SearchTyped (term : jsstring)
  | CheckboxClicked (index : nat)
  | AliasTyped (index : nat) (text : jsstring)
  | FilenameTyped (text : jsstring)
  | ExportClicked.

Definition withStore (c : Component) (st : @AgentState number) : Component :=
  {| store := st; ui := ui c; written := written c |}.

Definition handle (ev : event) (c : Component) : Component :=
  let st := store c in
  match ev with
  | FileChosen file => handleFileChange file c
  | ResetClicked => if hasWorkbook st then withStore c (reset st) else c
  | TabClicked index =>
    if panelShown st && (index <? length (sheets st))%nat
    then withStore c (setActiveSheetIndex (Z.of_nat index) st) else c
  | SearchTyped term =>
    if panelShown st then withStore c (setSearchTerm term st) else c
  | CheckboxClicked index =>
    match columnKeys st !! index with
    | Some key => if panelShown st then withStore c (toggleColumn key st) else c
    | None => c
    end
  | AliasTyped index text =>
    match columnKeys st !! index with
    | Some key =>
      if panelShown st && reads_truthy (selectedColumns st) key
      then withStore c (setColumnAlias key text st) else c
    | None => c
    end
  | FilenameTyped text =>
    if panelShown st
    then {| store := st;
            ui := {| exportFilename := text; isExporting := isExporting (ui c);
                     error := error (ui c) |};
            written := written c |}
    else c
  | ExportClicked =>
    if panelShown st && negb (isExporting (ui c))
    then
      let r := handleExport Number_toString toLocaleLowerCase_fa
                 normalize_NFKD XLSX_throws st (ui c) in
      {| store := st; ui := fst r; written := written c ++ snd r |}
    else c
  end.

Definition handleAll (evs : list event) (c : Component) : Component :=
  fold_left (fun c' ev => handle ev c') evs c.

(** What holds of the store after any run of events. *)
Definition storeInvariant (st : @AgentState number) : Prop :=
  (0 <= activeSheetIndex st)%Z
  /\ (sheets st <> [] ->
      (activeSheetIndex st < Z.of_nat (length (sheets st)))%Z)
  /\ (sheets st = [] -> activeSheetIndex st = 0%Z)
  /\ (forall k, is_Some (selectedColumns st !! k) <-> k ∈ columnKeys st)
  /\ (forall k, is_Some (columnAliases st !! k) -> k ∈ columnKeys st)
  /\ (forall sheet h, sheet ∈ sheets st -> h ∈ headers sheet ->
        h <> [] /\ trim h = h).

(** What holds of the local state and of the calls made to the writer
    after any run of events. *)
Definition writerInvariant (c : Component) : Prop :=
  isExporting (ui c) = false
  /\ forall call, call ∈ written c ->
       exists aoa filename,
         call = WriteFile (lit "نتیجه") aoa filename
         /\ endsWith filename (lit ".xlsx") = true
         /\ exists width, (1 <= width)%nat
              /\ aoa <> []
              /\ Forall (fun r => length r = width) aoa.

End Component.

Definition exampleParsed : @parsedWorkbook Z :=
  [(lit "Sheet1",
    [[CString (lit " Name "); CNull; CNumber 2024%Z];
     [CString (lit "Ali"); CNumber 5%Z; CBoolean true];
     [CString (lit "Reza"); CNumber 7%Z; CBoolean false]])].

(** The file of the specification's scenario: the header row ["Name", ""]
    (a blank cell comes out of the parser as the empty string) and two
    rows. *)
Definition scenarioParsed : @parsedWorkbook Z :=
  [(lit "Sheet1",
    [[CString (lit "Name"); CString []];
     [CString (lit "Ali"); CNumber 5%Z];
     [CString (lit "Reza"); CNumber 7%Z]])].

(** * Properties *)

(** ** Strings *)

Example buildColumnKey_Name :
  buildColumnKey (Some (lit " Name ")) 0 = lit "Name::0".
Proof. reflexivity. Qed.

Example buildColumnKey_blank :
  buildColumnKey (Some (lit "  ")) 11 = [0x633; 0x62A; 0x648; 0x646; 45; 49; 50].
Proof. reflexivity. Qed.

Lemma startsWith_spec (s t : jsstring) :
  startsWith s t = true <-> exists post, s = t ++ post.
Proof.
  revert s. induction t as [|b t IH]; intros s; simpl.
  - split; [intros _; by exists s | done].
  - destruct s as [|a s].
    + split; [done | intros [post Hp]; discriminate Hp].
    + rewrite andb_true_iff, N.eqb_eq, IH. split.
      * intros [-> [post ->]]. by exists post.
      * intros [post Hp]. injection Hp as -> ->. eauto.
Qed.

Lemma endsWith_spec (s t : jsstring) :
  endsWith s t = true <-> exists pre, s = pre ++ t.
Proof.
  unfold endsWith. rewrite startsWith_spec. split.
  - intros [post Hp]. exists (rev post).
    apply (f_equal (@rev N)) in Hp.
    by rewrite rev_involutive, rev_app_distr, rev_involutive in Hp.
  - intros [pre ->]. exists (rev pre). by rewrite rev_app_distr.
Qed.

Lemma includes_spec (s t : jsstring) :
  includes s t = true <-> exists pre post, s = pre ++ t ++ post.
Proof.
  induction s as [|a s IH]; simpl.
  - rewrite orb_false_r, startsWith_spec. split.
    + intros [post Hp]. by exists [], post.
    + intros [pre [post Hp]]. destruct pre as [|x pre]; [|discriminate Hp].
      by exists post.
  - rewrite orb_true_iff, startsWith_spec, IH. split.
    + intros [[post Hp] | [pre [post ->]]].
      * by exists [], post.
      * by exists (a :: pre), post.
    + intros [pre [post Hp]]. destruct pre as [|x pre]; simpl in Hp.
      * left. by exists post.
      * right. injection Hp as -> ->. eauto.
Qed.

(** Decimal digits: no colon among them, and the rendering is injective. *)
Lemma digits_no_colon (d : Decimal.uint) : 58 ∉ digits d.
Proof.
  induction d; simpl; [apply not_elem_of_nil | ..];
    (apply not_elem_of_cons; split; [discriminate | assumption]).
Qed.

Lemma digits_inj (d d' : Decimal.uint) : digits d = digits d' -> d = d'.
Proof.
  revert d'. induction d; intros d' H; destruct d'; simpl in H;
    try discriminate H; try reflexivity;
    injection H as H; f_equal; by apply IHd.
Qed.

Lemma decimal_no_colon (n : nat) : 58 ∉ decimal n.
Proof. apply digits_no_colon. Qed.

Lemma decimal_inj (n m : nat) : decimal n = decimal m -> n = m.
Proof. intros H. by apply Unsigned.to_uint_inj, digits_inj. Qed.

(** The text before the first occurrence of a code unit is determined by
    the whole string. *)
Lemma before_first_unique (c : N) (x x' r r' : jsstring) :
  c ∉ x -> c ∉ x' -> x ++ c :: r = x' ++ c :: r' -> x = x'.
Proof.
  revert x'. induction x as [|a x IH]; intros x' Hx Hx' H.
  - destruct x' as [|a' x']; [done|]. simpl in H. injection H as <- _.
    exfalso. apply Hx'. by left.
  - destruct x' as [|a' x']; simpl in H.
    + injection H as -> _. exfalso. apply Hx. by left.
    + injection H as <- H. f_equal. apply IH; [| |done].
      * intros Hin. apply Hx. by right.
      * intros Hin. apply Hx'. by right.
Qed.

(** ... and so is the text after the last one. *)
Lemma after_last_unique (c : N) (a a' d d' : jsstring) :
  c ∉ d -> c ∉ d' -> a ++ c :: d = a' ++ c :: d' -> d = d'.
Proof.
  intros Hd Hd' H. apply (f_equal (@rev N)) in H.
  rewrite !rev_app_distr in H. simpl in H. rewrite <- !app_assoc in H.
  simpl in H. apply before_first_unique in H.
  - apply (f_equal (@rev N)) in H. by rewrite !rev_involutive in H.
  - by rewrite list_elem_of_In, <- in_rev, <- list_elem_of_In.
  - by rewrite list_elem_of_In, <- in_rev, <- list_elem_of_In.
Qed.

(** ** Column keys *)

Lemma buildColumnKey_cases (header : option jsstring) (index : nat) :
  (exists t, buildColumnKey header index = t ++ 58 :: 58 :: decimal index)
  \/ buildColumnKey header index
     = [0x633; 0x62A; 0x648; 0x646; 45] ++ decimal (index + 1).
Proof.
  unfold buildColumnKey. destruct header as [h|]; [|by right].
  destruct (truthy (trim h)); [left; by exists (trim h) | by right].
Qed.

(** Two column keys built at different positions differ, whatever the
    headers are. *)
Lemma buildColumnKey_inj_index (h h' : option jsstring) (i j : nat) :
  buildColumnKey h i = buildColumnKey h' j -> i = j.
Proof.
  destruct (buildColumnKey_cases h i) as [[t ->] | ->];
    destruct (buildColumnKey_cases h' j) as [[t' ->] | ->]; intros H.
  - apply decimal_inj.
    change (t ++ 58 :: 58 :: decimal i) with (t ++ [58] ++ 58 :: decimal i) in H.
    change (t' ++ 58 :: 58 :: decimal j) with (t' ++ [58] ++ 58 :: decimal j) in H.
    rewrite !app_assoc in H.
    by apply after_last_unique in H; [| apply decimal_no_colon ..].
  - exfalso.
    assert (Hin : 58 ∈ [0x633; 0x62A; 0x648; 0x646; 45] ++ decimal (j + 1)).
    { rewrite <- H. apply elem_of_app. right. by left. }
    apply elem_of_app in Hin as [Hin | Hin].
    + by repeat (apply elem_of_cons in Hin as [Hin | Hin]; [discriminate Hin|]);
        apply elem_of_nil in Hin.
    + by apply decimal_no_colon in Hin.
  - exfalso.
    assert (Hin : 58 ∈ [0x633; 0x62A; 0x648; 0x646; 45] ++ decimal (i + 1)).
    { rewrite H. apply elem_of_app. right. by left. }
    apply elem_of_app in Hin as [Hin | Hin].
    + by repeat (apply elem_of_cons in Hin as [Hin | Hin]; [discriminate Hin|]);
        apply elem_of_nil in Hin.
    + by apply decimal_no_colon in Hin.
  - apply app_inv_head, decimal_inj in H. lia.
Qed.

Lemma keysOf_lookup (hs : list jsstring) (i : nat) :
  keysOf hs !! i = (fun h => buildColumnKey (Some h) i) <$> hs !! i.
Proof. unfold keysOf. apply list_lookup_imap. Qed.

Lemma keysOf_length (hs : list jsstring) : length (keysOf hs) = length hs.
Proof. unfold keysOf. apply length_imap. Qed.

(** C6.  Whatever the headers of a sheet are, blank after trimming or not,
    the column keys computed by [buildColumnKey] over them in positional
    order are pairwise distinct: the key list has no duplicate, and two
    positions holding the same key are the same position. *)
Theorem column_keys_pairwise_distinct (hs : list jsstring) :
  NoDup (keysOf hs)
  /\ forall (i j : nat) (hi hj : jsstring),
       hs !! i = Some hi -> hs !! j = Some hj -> i <> j ->
       buildColumnKey (Some hi) i <> buildColumnKey (Some hj) j.
Proof.
  split.
  - apply NoDup_alt. intros i j k Hi Hj.
    rewrite keysOf_lookup in Hi, Hj.
    apply fmap_Some in Hi as (hi & _ & ->).
    apply fmap_Some in Hj as (hj & _ & Hj).
    by apply buildColumnKey_inj_index in Hj.
  - intros i j hi hj _ _ Hne Heq. by apply buildColumnKey_inj_index in Heq.
Qed.

(** Column keys never name a property inherited from [Object.prototype], so
    reading or assigning one on an object literal only ever touches an own
    property. *)
Lemma prototype_names_shape :
  forallb (fun n => negb (existsb (N.eqb 58) n)
                    && negb (startsWith n [0x633]))
    Object_prototype_names = true.
Proof. reflexivity. Qed.

Lemma buildColumnKey_not_inherited (header : option jsstring) (index : nat) :
  inherited (buildColumnKey header index) = false.
Proof.
  apply bool_decide_eq_false. intros Hin.
  pose proof prototype_names_shape as Hall.
  rewrite forallb_forall in Hall.
  apply list_elem_of_In, Hall, andb_true_iff in Hin as [Hcolon Hstart].
  destruct (buildColumnKey_cases header index) as [[t Hk] | Hk];
    rewrite Hk in *.
  - apply negb_true_iff, not_true_iff_false in Hcolon. apply Hcolon.
    apply existsb_exists. exists 58. split; [|done].
    apply in_or_app. right. by left.
  - discriminate Hstart.
Qed.

(** ** The store *)

Section StoreProperties.

Context {number : Type}.
Implicit Types (st : @AgentState number) (sheet : @RawSheetData number).

Lemma Array_at_in_range {A : Type} (l : list A) (j : Z) :
  (0 <= j < Z.of_nat (length l))%Z -> Array_at l j = l !! Z.to_nat j.
Proof.
  intros Hj. unfold Array_at.
  destruct (Z.leb_spec 0 j); [|lia].
  destruct (Z.ltb_spec j 0); [lia|].
  destruct (Z.leb_spec (Z.of_nat (length l)) j); [lia|]. done.
Qed.

Lemma Array_at_from_end {A : Type} (l : list A) (j : Z) :
  (- Z.of_nat (length l) <= j < 0)%Z ->
  Array_at l j = l !! Z.to_nat (Z.of_nat (length l) + j).
Proof.
  intros Hj. unfold Array_at.
  destruct (Z.leb_spec 0 j); [lia|].
  destruct (Z.ltb_spec (Z.of_nat (length l) + j) 0); [lia|].
  destruct (Z.leb_spec (Z.of_nat (length l)) (Z.of_nat (length l) + j));
    [lia|]. done.
Qed.

Lemma Array_at_out_of_range {A : Type} (l : list A) (j : Z) :
  (Z.of_nat (length l) <= j \/ j < - Z.of_nat (length l))%Z ->
  Array_at l j = None.
Proof.
  intros Hj. unfold Array_at.
  destruct (Z.leb_spec 0 j).
  - destruct (Z.ltb_spec j 0); [done|].
    destruct (Z.leb_spec (Z.of_nat (length l)) j); [done | lia].
  - destruct (Z.ltb_spec (Z.of_nat (length l) + j) 0); [done | lia].
Qed.

Lemma Array_at_Some_lt {A : Type} (l : list A) (j : Z) (x : A) :
  Array_at l j = Some x -> (- Z.of_nat (length l) <= j < Z.of_nat (length l))%Z.
Proof.
  intros H.
  destruct (Z.le_gt_cases (Z.of_nat (length l)) j) as [Hge|Hlt];
    [by rewrite Array_at_out_of_range in H by lia|].
  destruct (Z.le_gt_cases (- Z.of_nat (length l)) j) as [Hle|Hgt]; [lia|].
  by rewrite Array_at_out_of_range in H by lia.
Qed.

(** What [forEach] leaves in the selection object. *)
Lemma selectAll_lookup (hs : list jsstring) (idx : nat)
    (acc : gmap jsstring bool) (k : jsstring) :
  selectAll hs idx acc !! k =
    if bool_decide
         (k ∈ imap (fun i h => buildColumnKey (Some h) (idx + i)) hs)
    then Some true else acc !! k.
Proof.
  revert idx acc. induction hs as [|h hs IH]; intros idx acc.
  - cbn [selectAll imap]. case_bool_decide as Hin; [|done].
    by apply not_elem_of_nil in Hin.
  - cbn [selectAll imap]. rewrite IH.
    rewrite (imap_ext (fun i h0 => buildColumnKey (Some h0) (S idx + i))
                      ((fun i h0 => buildColumnKey (Some h0) (idx + i)) ∘ S))
      by (intros; simpl; f_equal; lia).
    rewrite Nat.add_0_r.
    destruct (decide (k ∈ imap
      ((fun i h0 => buildColumnKey (Some h0) (idx + i)) ∘ S) hs)) as [Hin|Hnin].
    + rewrite !bool_decide_eq_true_2; [done | by right | done].
    + rewrite (bool_decide_eq_false_2 _ Hnin).
      destruct (decide (k = buildColumnKey (Some h) idx)) as [->|Hne].
      * rewrite lookup_insert_eq, bool_decide_eq_true_2; [done | by left].
      * rewrite lookup_insert_ne by done.
        rewrite bool_decide_eq_false_2; [done|].
        intros [?|?]%elem_of_cons; done.
Qed.

Lemma selectAll_keysOf (hs : list jsstring) (k : jsstring) :
  selectAll hs 0 ∅ !! k =
    if bool_decide (k ∈ keysOf hs) then Some true else None.
Proof. by rewrite selectAll_lookup, lookup_empty. Qed.

Lemma setActiveSheetIndex_resolved st (index : Z) sheet :
  Array_at (sheets st) index = Some sheet ->
  setActiveSheetIndex index st =
    {| workbookName := workbookName st; sheets := sheets st;
       activeSheetIndex := index;
       selectedColumns := selectAll (headers sheet) 0 ∅;
       columnAliases := ∅; searchTerm := [] |}.
Proof. intros H. unfold setActiveSheetIndex. by rewrite H. Qed.

Lemma setActiveSheetIndex_unresolved st (index : Z) :
  Array_at (sheets st) index = None -> setActiveSheetIndex index st = st.
Proof. intros H. unfold setActiveSheetIndex. by rewrite H. Qed.

Lemma perform_sheets (c : storeCall) st : sheets (perform c st) = sheets st.
Proof.
  destruct c; simpl; try done.
  unfold setActiveSheetIndex. by destruct (Array_at (sheets st) index).
Qed.

Lemma performAll_sheets (cs : list storeCall) st :
  sheets (performAll cs st) = sheets st.
Proof.
  revert st. induction cs as [|c cs IH]; intros st; [done|].
  unfold performAll in *. simpl. by rewrite IH, perform_sheets.
Qed.

Lemma perform_workbookName (c : storeCall) st :
  workbookName (perform c st) = workbookName st.
Proof.
  destruct c; simpl; try done.
  unfold setActiveSheetIndex. by destruct (Array_at (sheets st) index).
Qed.

Lemma performAll_workbookName (cs : list storeCall) st :
  workbookName (performAll cs st) = workbookName st.
Proof.
  revert st. induction cs as [|c cs IH]; intros st; [done|].
  unfold performAll in *. simpl. by rewrite IH, perform_workbookName.
Qed.

(** C3.  In a loaded workbook, [setActiveSheetIndex j] for an in-range [j]
    resets the per-column state, whatever calls came before it: after
    switching to any sheet [i], customising columns, aliases and the search
    term at will, and switching (back) to [j], the Selection Map maps every
    column key of sheet [j] to true and holds nothing else, the Alias Map is
    empty, the search term is empty and sheet [j] is the active sheet. *)
Theorem sheet_switch_resets_customization st (i j : Z)
    (edits : list storeCall) sheet :
  (0 <= j < Z.of_nat (length (sheets st)))%Z ->
  sheets st !! Z.to_nat j = Some sheet ->
  let st' := setActiveSheetIndex j
               (performAll edits (setActiveSheetIndex i st)) in
  (forall k, selectedColumns st' !! k =
             if bool_decide (k ∈ keysOf (headers sheet))
             then Some true else None)
  /\ (forall k, k ∈ keysOf (headers sheet) ->
                reads_truthy (selectedColumns st') k = true)
  /\ columnAliases st' = ∅
  /\ searchTerm st' = []
  /\ activeSheetIndex st' = j
  /\ activeSheet st' = Some sheet
  /\ sheets st' = sheets st
  /\ workbookName st' = workbookName st.
Proof.
  intros Hj Hsheet st'.
  assert (Hsheets : sheets (performAll edits (setActiveSheetIndex i st))
                    = sheets st).
  { rewrite performAll_sheets. apply (perform_sheets (CallSetActiveSheetIndex i)). }
  assert (Hat : Array_at (sheets (performAll edits (setActiveSheetIndex i st))) j
                = Some sheet).
  { by rewrite Hsheets, Array_at_in_range. }
  subst st'. rewrite (setActiveSheetIndex_resolved _ _ _ Hat).
  cbn [selectedColumns columnAliases searchTerm activeSheetIndex sheets
       workbookName].
  repeat split; try done.
  - intros k. apply selectAll_keysOf.
  - intros k Hk. unfold reads_truthy.
    by rewrite selectAll_keysOf, bool_decide_eq_true_2.
  - rewrite performAll_workbookName.
    apply (perform_workbookName (CallSetActiveSheetIndex i)).
Qed.

(** C5, as the code has it.  [setActiveSheetIndex index] leaves the whole
    state unchanged when [index] is at least the number of sheets or below
    minus that number.  A negative index down to minus the number of sheets
    is resolved by [Array.prototype.at] from the end of the sheet list: the
    call stores [index] as the active index, activates that sheet and resets
    the per-column state. *)
Theorem out_of_range_index_is_noop st (index : Z) :
  let n := Z.of_nat (length (sheets st)) in
  ((n <= index \/ index < - n)%Z -> setActiveSheetIndex index st = st)
  /\ ((- n <= index < 0)%Z ->
      exists sheet,
        sheets st !! Z.to_nat (n + index) = Some sheet
        /\ setActiveSheetIndex index st =
             {| workbookName := workbookName st; sheets := sheets st;
                activeSheetIndex := index;
                selectedColumns := selectAll (headers sheet) 0 ∅;
                columnAliases := ∅; searchTerm := [] |}
        /\ activeSheet (setActiveSheetIndex index st) = Some sheet).
Proof.
  intros n. split.
  - intros Hout. by apply setActiveSheetIndex_unresolved, Array_at_out_of_range.
  - intros Hneg. pose proof (Array_at_from_end (sheets st) index Hneg) as Hat.
    fold n in Hat.
    destruct (sheets st !! Z.to_nat (n + index)) as [sheet|] eqn:Hl.
    + exists sheet. split; [done|].
      rewrite (setActiveSheetIndex_resolved _ _ _ Hat). split; [done|].
      unfold activeSheet. by cbn [sheets activeSheetIndex].
    + apply lookup_ge_None in Hl. lia.
Qed.

Lemma reads_truthy_insert (obj : gmap jsstring bool) (k k' : jsstring)
    (b : bool) :
  reads_truthy (<[k := b]> obj) k' =
    if decide (k = k') then b else reads_truthy obj k'.
Proof.
  unfold reads_truthy. rewrite lookup_insert. by case_decide.
Qed.

(** C7.  Toggling a column key twice in a row restores how that key reads
    (selected exactly when it read as selected before), changes the reading
    of no other key and touches no other field of the state.  A column key
    that the Selection Map does not hold reads as unselected, and reads as
    selected after one toggle. *)
Theorem toggleColumn_twice_restores st (k : jsstring) :
  let st2 := toggleColumn k (toggleColumn k st) in
  reads_truthy (selectedColumns st2) k = reads_truthy (selectedColumns st) k
  /\ (forall k', k' <> k ->
        reads_truthy (selectedColumns st2) k'
        = reads_truthy (selectedColumns st) k')
  /\ (forall header index,
        k = buildColumnKey header index ->
        selectedColumns st !! k = None ->
        reads_truthy (selectedColumns st) k = false
        /\ reads_truthy (selectedColumns (toggleColumn k st)) k = true)
  /\ workbookName st2 = workbookName st
  /\ sheets st2 = sheets st
  /\ activeSheetIndex st2 = activeSheetIndex st
  /\ columnAliases st2 = columnAliases st
  /\ searchTerm st2 = searchTerm st.
Proof.
  intros st2. subst st2. unfold toggleColumn.
  cbn [selectedColumns workbookName sheets activeSheetIndex columnAliases
       searchTerm].
  split; [|split; [|split; [|done]]].
  - rewrite !reads_truthy_insert, !decide_True by done. apply negb_involutive.
  - intros k' Hne. by rewrite !reads_truthy_insert, !decide_False by done.
  - intros header index -> Habsent.
    rewrite reads_truthy_insert, decide_True by done.
    unfold reads_truthy. rewrite Habsent.
    by rewrite buildColumnKey_not_inherited.
Qed.

End StoreProperties.

(** ** The view projection *)

Section ViewProperties.

Context {number : Type}.
Variable Number_toString : number -> jsstring.
Variable toLocaleLowerCase_fa : jsstring -> jsstring.
Variable normalize_NFKD : jsstring -> jsstring.
Variable XLSX_throws : @writerCall number -> bool.

Implicit Types (st : @AgentState number) (sheet : @RawSheetData number)
  (row : list (@cell number)).

Local Abbreviation normalizeForSearch' :=
  (normalizeForSearch Number_toString toLocaleLowerCase_fa normalize_NFKD).
Local Abbreviation rowMatches' :=
  (rowMatches Number_toString toLocaleLowerCase_fa normalize_NFKD).
Local Abbreviation rowHasMatch' :=
  (rowHasMatch Number_toString toLocaleLowerCase_fa normalize_NFKD).
Local Abbreviation visibleRows' :=
  (visibleRows Number_toString toLocaleLowerCase_fa normalize_NFKD).
Local Abbreviation rowsForExport' :=
  (rowsForExport Number_toString toLocaleLowerCase_fa normalize_NFKD).
Local Abbreviation spec_exportMatrix' :=
  (spec_exportMatrix Number_toString toLocaleLowerCase_fa normalize_NFKD).
Local Abbreviation handleExport' :=
  (handleExport Number_toString toLocaleLowerCase_fa normalize_NFKD XLSX_throws).

(** *** Visible rows *)

Lemma normalizeForSearch_spec (value : @cell number) :
  normalizeForSearch' value
  = spec_normalForm Number_toString toLocaleLowerCase_fa normalize_NFKD value.
Proof.
  unfold normalizeForSearch, spec_normalForm.
  by destruct value as [s|n|[|]| |].
Qed.

Lemma rowMatches_spec (term : jsstring) row :
  rowMatches' (normalizeForSearch' (CString term)) row = true
  <-> rowHasMatch' term row.
Proof.
  unfold rowMatches, rowHasMatch, occursIn.
  rewrite existsb_exists. split.
  - intros [c [Hin Hc]]. exists c. split; [by apply list_elem_of_In|].
    rewrite <- normalizeForSearch_spec. by apply includes_spec.
  - intros [c [Hin Hc]]. exists c. split; [by apply list_elem_of_In|].
    rewrite <- normalizeForSearch_spec in Hc. by apply includes_spec.
Qed.

Lemma filter_keptInOrder {A : Type} (f : A -> bool) (P : A -> Prop)
    (l : list A) :
  (forall x, f x = true <-> P x) -> keptInOrder P l (List.filter f l).
Proof.
  intros Hf. induction l as [|x l IH]; simpl; [constructor|].
  destruct (f x) eqn:Hx.
  - apply kept_take; [by apply Hf | done].
  - apply kept_drop; [|done]. rewrite <- Hf. congruence.
Qed.

Lemma keptInOrder_sublist {A : Type} (P : A -> Prop) (l kept : list A) :
  keptInOrder P l kept -> kept `sublist_of` l.
Proof.
  induction 1; [constructor | by apply sublist_skip | by apply sublist_cons].
Qed.

Lemma keptInOrder_elem_of {A : Type} (P : A -> Prop) (l kept : list A) :
  keptInOrder P l kept -> forall x, x ∈ kept <-> x ∈ l /\ P x.
Proof.
  induction 1 as [|y l kept Hy _ IH|y l kept Hy _ IH]; intros x.
  - split; [intros []%elem_of_nil | intros [[]%elem_of_nil _]].
  - rewrite !elem_of_cons, IH. intuition (subst; auto).
  - rewrite elem_of_cons, IH. intuition (subst; auto). by subst.
Qed.

(** C2.  With an active sheet: when the search term is empty or only white
    space after trimming, the visible rows are all the rows of the sheet in
    their order; otherwise they are exactly the rows, kept in order, in
    which at least one cell's normalised string form contains the normalised
    search term as a substring.  The normalised string form of a value is
    its string form (the empty string for a [null] or absent value),
    lowercased by the locale and then Unicode-normalised; the search term
    is normalised as typed, without trimming. *)
Theorem visibleRows_filters_by_substring st sheet :
  activeSheet st = Some sheet ->
  (trim (searchTerm st) = [] -> visibleRows' st = rows sheet)
  /\ (trim (searchTerm st) <> [] ->
      keptInOrder (rowHasMatch' (searchTerm st)) (rows sheet) (visibleRows' st)
      /\ visibleRows' st `sublist_of` rows sheet
      /\ forall row, row ∈ visibleRows' st
                     <-> row ∈ rows sheet /\ rowHasMatch' (searchTerm st) row)
  /\ (forall value,
        normalizeForSearch' value
        = normalize_NFKD
            (toLocaleLowerCase_fa
               (spec_stringForm Number_toString value)))
  /\ normalizeForSearch' CNull = normalize_NFKD (toLocaleLowerCase_fa [])
  /\ normalizeForSearch' CUndefined = normalize_NFKD (toLocaleLowerCase_fa []).
Proof.
  intros Hactive. unfold visibleRows. rewrite Hactive.
  split; [|split; [|split; [apply normalizeForSearch_spec | done]]].
  - by intros ->.
  - intros Hterm. destruct (trim (searchTerm st)) as [|c t]; [done|].
    cbn [truthy negb].
    assert (Hkept : keptInOrder (rowHasMatch' (searchTerm st)) (rows sheet)
              (List.filter
                 (rowMatches' (normalizeForSearch' (CString (searchTerm st))))
                 (rows sheet))).
    { apply filter_keptInOrder. intros row. apply rowMatches_spec. }
    split; [done|]. split.
    + by eapply keptInOrder_sublist.
    + by apply keptInOrder_elem_of.
Qed.

(** *** Selected column indices *)

Lemma pick_indices {K : Type} (f : K -> bool) (ks : list K) (g : nat -> nat) :
  List.map snd
    (List.filter (fun p => f (fst p)) (imap (fun i k => (k, g i)) ks))
  = List.map g
      (List.filter
         (fun i => match ks !! i with Some k => f k | None => false end)
         (seq 0 (length ks))).
Proof.
  revert g. induction ks as [|k ks IH]; intros g; [done|].
  cbn [imap length seq List.filter fst]. cbn [lookup list_lookup].
  assert (Htail :
    List.map snd (List.filter (fun p => f (fst p))
                    (imap ((fun i k0 => (k0, g i)) ∘ S) ks))
    = List.map g
        (List.filter
           (fun i => match (k :: ks) !! i with
                     | Some k0 => f k0
                     | None => false
                     end)
           (seq 1 (length ks)))).
  { change (imap ((fun i k0 => (k0, g i)) ∘ S) ks)
      with (imap (fun i k0 => (k0, (g ∘ S) i)) ks).
    rewrite (IH (g ∘ S)), <- seq_shift, filter_map_swap, map_map. done. }
  destruct (f k); cbn [List.map snd]; by rewrite Htail.
Qed.

Lemma columnKeys_active st sheet :
  activeSheet st = Some sheet -> columnKeys st = keysOf (headers sheet).
Proof. intros H. unfold columnKeys, activeHeaders. by rewrite H. Qed.

Lemma selectedColumnIndices_spec st sheet :
  activeSheet st = Some sheet ->
  selectedColumnIndices st = spec_selectedIndices st sheet.
Proof.
  intros Hactive. unfold selectedColumnIndices, spec_selectedIndices.
  rewrite (columnKeys_active _ _ Hactive).
  rewrite (pick_indices (reads_truthy (selectedColumns st))
             (keysOf (headers sheet)) (fun i => i)).
  rewrite map_id, keysOf_length. apply filter_ext_in.
  intros i [_ Hi]%in_seq. rewrite keysOf_lookup.
  destruct (headers sheet !! i) as [h|] eqn:Hh; [done|].
  apply lookup_ge_None in Hh. simpl in Hi. lia.
Qed.

Lemma filter_seq_sorted (f : nat -> bool) (a n : nat) :
  StronglySorted lt (List.filter f (seq a n)).
Proof.
  revert a. induction n as [|n IH]; intros a; [constructor|].
  cbn [seq List.filter]. destruct (f a); [|apply IH].
  constructor; [apply IH|].
  apply Forall_forall. intros x Hx.
  apply list_elem_of_In, filter_In in Hx as [[Hx _]%in_seq _]. lia.
Qed.

Lemma spec_selectedIndices_elem_of st sheet (idx : nat) :
  idx ∈ spec_selectedIndices st sheet
  <-> exists h, headers sheet !! idx = Some h
        /\ reads_truthy (selectedColumns st) (buildColumnKey (Some h) idx)
           = true.
Proof.
  unfold spec_selectedIndices.
  rewrite list_elem_of_In, filter_In, in_seq. split.
  - intros [[_ Hlt] Hsel]. simpl in Hlt.
    destruct (lookup_lt_is_Some_2 (headers sheet) idx Hlt) as [h Hh].
    exists h. by rewrite Hh in Hsel.
  - intros [h [Hh Hsel]]. rewrite Hh. split; [|done].
    apply lookup_lt_Some in Hh. simpl. lia.
Qed.

(** *** The export matrix *)

Lemma headerCell_spec st sheet (idx : nat) (h : jsstring) :
  activeSheet st = Some sheet ->
  headers sheet !! idx = Some h ->
  headerCell st idx = spec_headerEntry st sheet idx.
Proof.
  intros Hactive Hh. unfold headerCell, spec_headerEntry.
  rewrite (columnKeys_active _ _ Hactive), keysOf_lookup.
  unfold activeHeaders. rewrite Hactive, Hh.
  cbn [fmap option_fmap option_map default from_option id].
  destruct (columnAliases st !! buildColumnKey (Some h) idx) as [a|];
    cbn [fmap option_fmap option_map].
  - destruct (trim a); [|done]. by destruct h.
  - by destruct h.
Qed.

Lemma cellAt_spec row (idx : nat) : cellAt row idx = spec_dataCell row idx.
Proof.
  unfold cellAt, spec_dataCell. by destruct (row !! idx) as [[]|].
Qed.

Lemma rowsForExport_selected st sheet :
  activeSheet st = Some sheet ->
  selectedColumnIndices st <> [] ->
  rowsForExport' st =
    List.map (fun idx => CString (headerCell st idx)) (selectedColumnIndices st)
    :: List.map (fun row => List.map (cellAt row) (selectedColumnIndices st))
         (visibleRows' st).
Proof.
  intros Hactive Hsel. unfold rowsForExport. rewrite Hactive.
  by destruct (selectedColumnIndices st).
Qed.

(** C1.  With an active sheet and at least one selected column index, the
    export matrix is the header row followed by one row per visible row.
    The selected indices are the positions whose column key reads as
    selected, in ascending order; the header entry of a selected index is
    the trimmed alias if that is not empty, else the header text if that is
    not empty, else the 1-based placeholder; a data row is the visible row
    read at the selected indices, the empty string standing for an absent
    cell.  The header row and every data row are as long as the number of
    selected columns. *)
Theorem rowsForExport_is_header_then_visible_rows st sheet :
  activeSheet st = Some sheet ->
  selectedColumnIndices st <> [] ->
  rowsForExport' st = spec_exportMatrix' st sheet
  /\ selectedColumnIndices st = spec_selectedIndices st sheet
  /\ StronglySorted lt (selectedColumnIndices st)
  /\ (forall idx, idx ∈ selectedColumnIndices st
        <-> exists h, headers sheet !! idx = Some h
              /\ reads_truthy (selectedColumns st)
                   (buildColumnKey (Some h) idx) = true)
  /\ length (rowsForExport' st) = S (length (visibleRows' st))
  /\ Forall (fun r => length r = length (selectedColumnIndices st))
       (rowsForExport' st).
Proof.
  intros Hactive Hsel.
  pose proof (selectedColumnIndices_spec _ _ Hactive) as Hspec.
  rewrite (rowsForExport_selected _ _ Hactive Hsel).
  split; [|split; [done|split; [|split; [|split]]]].
  - unfold spec_exportMatrix. rewrite <- Hspec. f_equal.
    + apply map_ext_in. intros idx Hin. f_equal.
      rewrite Hspec in Hin.
      apply list_elem_of_In, spec_selectedIndices_elem_of in Hin
        as [h [Hh _]].
      by eapply headerCell_spec.
    + apply map_ext. intros row. apply map_ext. intros idx.
      apply cellAt_spec.
  - rewrite Hspec. apply filter_seq_sorted.
  - intros idx. rewrite Hspec. apply spec_selectedIndices_elem_of.
  - cbn [length]. by rewrite length_map.
  - constructor; [by rewrite length_map|].
    apply Forall_forall. intros r Hr.
    apply list_elem_of_In, in_map_iff in Hr as [row [<- _]].
    by rewrite length_map.
Qed.

(** *** Triggering the export *)

Lemma rowsForExport_nil_iff st :
  rowsForExport' st = []
  <-> activeSheet st = None \/ selectedColumnIndices st = [].
Proof.
  unfold rowsForExport.
  destruct (activeSheet st) as [sheet|]; [|by split; [left|]].
  destruct (selectedColumnIndices st) as [|i sel]; cbn [length Nat.eqb].
  - split; [by right | done].
  - split; [done | by intros [|]].
Qed.

Lemma messages_differ : writeFailedMessage <> emptyExportMessage.
Proof. intros H. vm_compute in H. discriminate H. Qed.

Lemma handleExport_nonempty st ui :
  rowsForExport' st <> [] ->
  handleExport' st ui =
    let call := downloadWorkbook (rowsForExport' st) (exportFilename ui) in
    ({| exportFilename := exportFilename ui; isExporting := false;
        error := if XLSX_throws call then Some writeFailedMessage else None |},
     [call]).
Proof.
  intros Hne. unfold handleExport.
  destruct (rowsForExport' st) as [|r rs] eqn:Hrows; [done|].
  cbn [length Nat.eqb]. cbv zeta.
  by destruct (XLSX_throws _).
Qed.

(** C4, as the code has it.  The export matrix is empty exactly when there
    is no active sheet or no column is selected.  Triggering the export then
    makes no call to the writer and sets the error message that asks to
    select a column or to have data. *)
Theorem empty_export_is_aborted st ui :
  (rowsForExport' st = []
   <-> activeSheet st = None \/ selectedColumnIndices st = [])
  /\ (rowsForExport' st = [] ->
      handleExport' st ui =
        ({| exportFilename := exportFilename ui;
            isExporting := isExporting ui;
            error := Some emptyExportMessage |}, [])).
Proof.
  split; [apply rowsForExport_nil_iff|].
  intros Hnil. unfold handleExport. by rewrite Hnil.
Qed.

(** C10.  With an active sheet and at least one selected column index the
    export matrix has one row more than there are visible rows: the header
    row is there even when the sheet has no rows or the filter removes them
    all.  Triggering the export then calls the writer once, with that
    matrix, and does not set the empty-export message. *)
Theorem header_row_is_always_exported st sheet ui :
  activeSheet st = Some sheet ->
  selectedColumnIndices st <> [] ->
  length (rowsForExport' st) = S (length (visibleRows' st))
  /\ rowsForExport' st <> []
  /\ (visibleRows' st = [] ->
      rowsForExport' st =
        [List.map (fun idx => CString (headerCell st idx))
           (selectedColumnIndices st)])
  /\ snd (handleExport' st ui) =
       [WriteFile (lit "نتیجه") (rowsForExport' st)
          (exportName (exportFilename ui))]
  /\ error (fst (handleExport' st ui)) <> Some emptyExportMessage.
Proof.
  intros Hactive Hsel.
  assert (Hne : rowsForExport' st <> []).
  { by rewrite (rowsForExport_selected _ _ Hactive Hsel). }
  rewrite (handleExport_nonempty _ ui Hne). cbv zeta. cbn [fst snd error].
  split; [|split; [done|split; [|split; [done|]]]].
  - rewrite (rowsForExport_selected _ _ Hactive Hsel). cbn [length].
    by rewrite length_map.
  - intros Hvis. rewrite (rowsForExport_selected _ _ Hactive Hsel).
    by rewrite Hvis.
  - destruct (XLSX_throws _); [|done].
    intros H. apply messages_differ. congruence.
Qed.

(** C9.  The file name given to the writer ends with ".xlsx": a name that
    already ends with it is passed as it is, any other name gets ".xlsx"
    appended. *)
Theorem exported_filename_has_xlsx_suffix (filename : jsstring) :
  endsWith (exportName filename) (lit ".xlsx") = true
  /\ (exists stem, exportName filename = stem ++ lit ".xlsx")
  /\ (endsWith filename (lit ".xlsx") = true -> exportName filename = filename)
  /\ (endsWith filename (lit ".xlsx") = false ->
      exportName filename = filename ++ lit ".xlsx")
  /\ (forall (rs : list (list (@cell number))),
        downloadWorkbook rs filename
        = WriteFile (lit "نتیجه") rs (exportName filename))
  /\ (forall st ui, exportFilename ui = filename ->
        rowsForExport' st <> [] ->
        snd (handleExport' st ui) =
          [WriteFile (lit "نتیجه") (rowsForExport' st) (exportName filename)]).
Proof.
  assert (Hends : endsWith (exportName filename) (lit ".xlsx") = true).
  { unfold exportName.
    destruct (endsWith filename (lit ".xlsx")) eqn:He; [done|].
    apply endsWith_spec. by exists filename. }
  split; [done|]. split; [by apply endsWith_spec|].
  split; [|split; [|split]].
  - intros He. unfold exportName. by rewrite He.
  - intros He. unfold exportName. by rewrite He.
  - done.
  - intros st ui <- Hne. by rewrite (handleExport_nonempty _ ui Hne).
Qed.

End ViewProperties.

(** ** The scenarios of the specification, run on the example workbook *)

Example visibleRows_ali :
  visibleRows renderZ asciiLower asIs searchAliState
  = [[CString (lit "Ali"); CNumber 5%Z]].
Proof. reflexivity. Qed.

Example blank_alias_keeps_header :
  head (rowsForExport renderZ asciiLower asIs blankAliasState)
  = Some [CString (lit "Name"); CString (lit "ستون 2")].
Proof. reflexivity. Qed.

Example one_column_export :
  rowsForExport renderZ asciiLower asIs oneColumnState
  = [[CString (lit "Name")]; [CString (lit "Ali")]; [CString (lit "Reza")]].
Proof. reflexivity. Qed.

Example nothing_selected_export :
  handleExport renderZ asciiLower asIs neverThrows nothingSelectedState exampleUi
  = ({| exportFilename := lit "نتیجه"; isExporting := false;
        error := Some emptyExportMessage |}, []).
Proof. reflexivity. Qed.

(** A blank header stored as it is, which [setWorkbook] accepts and the
    parser never hands over, gets the placeholder key with the 1-based
    position. *)
Example stored_blank_header_export
    (Number_toString : Z -> jsstring)
    (toLocaleLowerCase_fa normalize_NFKD : jsstring -> jsstring) :
  activeSheet exampleState = Some exampleSheet
  /\ columnKeys exampleState = [lit "Name::0"; lit "ستون-2"]
  /\ selectedColumns exampleState !! lit "Name::0" = Some true
  /\ selectedColumns exampleState !! lit "ستون-2" = Some true
  /\ selectedColumnIndices exampleState = [0%nat; 1%nat]
  /\ rowsForExport Number_toString toLocaleLowerCase_fa normalize_NFKD
       exampleState
     = [[CString (lit "Name"); CString (lit "ستون 2")];
        [CString (lit "Ali"); CNumber 5%Z];
        [CString (lit "Reza"); CNumber 7%Z]].
Proof. repeat split; reflexivity. Qed.

(** C8.  For the sheet whose header row is ["Name", ""] and whose rows are
    [["Ali", 5], ["Reza", 7]], once the file is chosen and loaded: the blank
    header is stored as the placeholder "ستون 2" ("Column 2" in the locale,
    1-based); the column keys are "Name::0" and that placeholder followed by
    the positional suffix "::1"; both columns are selected; the export
    matrix is [["Name", "ستون 2"], ["Ali", 5], ["Reza", 7]]. *)
Theorem concrete_scenario_loaded_from_file
    (Number_toString : Z -> jsstring)
    (toLocaleLowerCase_fa normalize_NFKD : jsstring -> jsstring)
    (XLSX_throws : @writerCall Z -> bool) :
  let st := store (handle Number_toString toLocaleLowerCase_fa normalize_NFKD
                     XLSX_throws
                     (FileChosen (Some (lit "book.xlsx", Some scenarioParsed)))
                     initialComponent) in
  st = setWorkbook (lit "book.xlsx")
         (readWorkbookFile Number_toString scenarioParsed) initialState
  /\ activeHeaders st = [lit "Name"; lit "ستون 2"]
  /\ lit "ستون 2" = lit "ستون " ++ decimal (1 + 1)
  /\ columnKeys st = [lit "Name::0"; lit "ستون 2" ++ lit "::1"]
  /\ selectedColumns st !! lit "Name::0" = Some true
  /\ selectedColumns st !! (lit "ستون 2" ++ lit "::1") = Some true
  /\ selectedColumnIndices st = [0%nat; 1%nat]
  /\ selectedColumnCount st = 2%nat
  /\ columnAliases st = ∅
  /\ searchTerm st = []
  /\ visibleRows Number_toString toLocaleLowerCase_fa normalize_NFKD st
     = [[CString (lit "Ali"); CNumber 5%Z];
        [CString (lit "Reza"); CNumber 7%Z]]
  /\ rowsForExport Number_toString toLocaleLowerCase_fa normalize_NFKD st
     = [[CString (lit "Name"); CString (lit "ستون 2")];
        [CString (lit "Ali"); CNumber 5%Z];
        [CString (lit "Reza"); CNumber 7%Z]].
Proof. intros st. repeat split; reflexivity. Qed.

(** ** Where the code departs from the specification's wording *)

(** C4 fails on the second sheet of the example workbook, which has a
    selected column and no rows at all: the export matrix is the header row
    alone, and triggering the export calls the writer. *)
Lemma header_only_sheet_is_exported :
  rows emptySheet = []
  /\ activeSheet emptySheetState = Some emptySheet
  /\ rowsForExport renderZ asciiLower asIs emptySheetState
     = [[CString (lit "A")]]
  /\ handleExport renderZ asciiLower asIs neverThrows emptySheetState exampleUi
     = ({| exportFilename := lit "نتیجه"; isExporting := false;
           error := None |},
        [WriteFile (lit "نتیجه") [[CString (lit "A")]] (lit "نتیجه.xlsx")])
  /\ ~ (rowsForExport renderZ asciiLower asIs emptySheetState = []
        <-> selectedColumnIndices emptySheetState = []
            \/ rows emptySheet = []).
Proof.
  repeat split; try reflexivity.
  intros [_ Hclaim]. specialize (Hclaim (or_intror eq_refl)).
  vm_compute in Hclaim. discriminate Hclaim.
Qed.

(** C5 fails at index -1 on the example workbook of two sheets: the index is
    out of range, yet the call activates the last sheet and stores -1. *)
Lemma negative_index_activates_last_sheet :
  (-1 < 0)%Z
  /\ setActiveSheetIndex (-1) exampleState <> exampleState
  /\ activeSheetIndex (setActiveSheetIndex (-1) exampleState) = (-1)%Z
  /\ activeSheet (setActiveSheetIndex (-1) exampleState) = Some emptySheet
  /\ columnKeys (setActiveSheetIndex (-1) exampleState) = [lit "A::0"]
  /\ columnKeys exampleState = [lit "Name::0"; lit "ستون-2"].
Proof.
  repeat split; try reflexivity.
  intros H. apply (f_equal activeSheetIndex) in H.
  vm_compute in H. discriminate H.
Qed.

(** ** The theorems at concrete inputs *)

Lemma rowsForExport_is_header_then_visible_rows_witness :
  activeSheet exampleState = Some exampleSheet
  /\ selectedColumnIndices exampleState <> []
  /\ rowsForExport renderZ asciiLower asIs exampleState
     = spec_exportMatrix renderZ asciiLower asIs exampleState exampleSheet.
Proof.
  assert (Ha : activeSheet exampleState = Some exampleSheet) by reflexivity.
  assert (Hs : selectedColumnIndices exampleState <> [])
    by (vm_compute; discriminate).
  split; [exact Ha|]. split; [exact Hs|].
  exact (proj1 (rowsForExport_is_header_then_visible_rows
                  renderZ asciiLower asIs exampleState exampleSheet Ha Hs)).
Defined.

Lemma visibleRows_filters_by_substring_witness :
  (trim (searchTerm exampleState) = []
   /\ visibleRows renderZ asciiLower asIs exampleState = rows exampleSheet)
  /\ (trim (searchTerm searchAliState) <> []
      /\ keptInOrder (rowHasMatch renderZ asciiLower asIs (lit "ali"))
           (rows exampleSheet)
           (visibleRows renderZ asciiLower asIs searchAliState)
      /\ [CString (lit "Ali"); CNumber 5%Z]
         ∈ visibleRows renderZ asciiLower asIs searchAliState
      /\ [CString (lit "Reza"); CNumber 7%Z]
         ∉ visibleRows renderZ asciiLower asIs searchAliState).
Proof.
  assert (He : trim (searchTerm exampleState) = []) by reflexivity.
  assert (Ht : trim (searchTerm searchAliState) <> [])
    by (vm_compute; discriminate).
  pose proof (proj1 (proj2 (visibleRows_filters_by_substring renderZ
                asciiLower asIs searchAliState exampleSheet eq_refl)) Ht)
    as (Hkept & _ & Hiff).
  split; (split; [assumption|]).
  - exact (proj1 (visibleRows_filters_by_substring renderZ asciiLower asIs
                    exampleState exampleSheet eq_refl) He).
  - split; [exact Hkept|]. split.
    + apply Hiff. split; [by left|].
      exists (CString (lit "Ali")). split; [by left|].
      exists [], []. reflexivity.
    + intros Hin. apply Hiff in Hin as (_ & c & Hc & Hocc).
      assert (Hinc : includes
                (spec_normalForm renderZ asciiLower asIs c)
                (asIs (asciiLower (lit "ali"))) = true)
        by (by apply includes_spec).
      apply elem_of_cons in Hc as [-> | Hc];
        [vm_compute in Hinc; discriminate Hinc|].
      apply elem_of_cons in Hc as [-> | Hc];
        [vm_compute in Hinc; discriminate Hinc|].
      by apply elem_of_nil in Hc.
Defined.

Lemma sheet_switch_resets_customization_witness :
  (0 <= 0 < Z.of_nat (length (sheets blankAliasState)))%Z
  /\ sheets blankAliasState !! Z.to_nat 0 = Some exampleSheet
  /\ columnAliases
       (setActiveSheetIndex 0
          (performAll [CallToggleColumn (lit "A::0");
                       CallSetSearchTerm (lit "x")]
             (setActiveSheetIndex 1 blankAliasState))) = ∅.
Proof.
  assert (Hj : (0 <= 0 < Z.of_nat (length (sheets blankAliasState)))%Z)
    by (simpl; lia).
  assert (Hs : sheets blankAliasState !! Z.to_nat 0 = Some exampleSheet)
    by reflexivity.
  split; [exact Hj|]. split; [exact Hs|].
  exact (proj1 (proj2 (proj2
    (sheet_switch_resets_customization blankAliasState 1 0
       [CallToggleColumn (lit "A::0"); CallSetSearchTerm (lit "x")]
       exampleSheet Hj Hs)))).
Defined.

Lemma out_of_range_index_is_noop_witness :
  setActiveSheetIndex 2 exampleState = exampleState
  /\ setActiveSheetIndex (-3) exampleState = exampleState
  /\ exists sheet,
       sheets exampleState !! Z.to_nat (2 + -1) = Some sheet
       /\ setActiveSheetIndex (-1) exampleState =
            {| workbookName := workbookName exampleState;
               sheets := sheets exampleState;
               activeSheetIndex := (-1)%Z;
               selectedColumns := selectAll (headers sheet) 0 ∅;
               columnAliases := ∅; searchTerm := [] |}
       /\ activeSheet (setActiveSheetIndex (-1) exampleState) = Some sheet.
Proof.
  split; [|split].
  - apply (proj1 (out_of_range_index_is_noop exampleState 2)).
    left. simpl. lia.
  - apply (proj1 (out_of_range_index_is_noop exampleState (-3))).
    right. simpl. lia.
  - apply (proj2 (out_of_range_index_is_noop exampleState (-1))).
    simpl. lia.
Defined.

Lemma column_keys_pairwise_distinct_witness :
  [lit "a::1"; lit "a"; []; lit " "] !! 0%nat = Some (lit "a::1")
  /\ [lit "a::1"; lit "a"; []; lit " "] !! 1%nat = Some (lit "a")
  /\ 0%nat <> 1%nat
  /\ buildColumnKey (Some (lit "a::1")) 0 <> buildColumnKey (Some (lit "a")) 1
  /\ NoDup (keysOf [lit "a::1"; lit "a"; []; lit " "]).
Proof.
  assert (H01 : 0%nat <> 1%nat) by discriminate.
  split; [reflexivity|]. split; [reflexivity|]. split; [exact H01|]. split.
  - exact (proj2 (column_keys_pairwise_distinct
                    [lit "a::1"; lit "a"; []; lit " "])
             0%nat 1%nat (lit "a::1") (lit "a") eq_refl eq_refl H01).
  - exact (proj1 (column_keys_pairwise_distinct
                    [lit "a::1"; lit "a"; []; lit " "])).
Defined.

Lemma toggleColumn_twice_restores_witness :
  lit "ستون-2" <> lit "Name::0"
  /\ reads_truthy
       (selectedColumns
          (toggleColumn (lit "Name::0")
             (toggleColumn (lit "Name::0") exampleState)))
       (lit "ستون-2")
     = reads_truthy (selectedColumns exampleState) (lit "ستون-2")
  /\ selectedColumns exampleState !! buildColumnKey (Some (lit "Zed")) 5 = None
  /\ reads_truthy (selectedColumns exampleState)
       (buildColumnKey (Some (lit "Zed")) 5) = false.
Proof.
  assert (Hne : lit "ستون-2" <> lit "Name::0") by (vm_compute; discriminate).
  assert (Habs : selectedColumns exampleState
                   !! buildColumnKey (Some (lit "Zed")) 5 = None)
    by reflexivity.
  split; [exact Hne|]. split; [|split; [exact Habs|]].
  - exact (proj1 (proj2 (toggleColumn_twice_restores exampleState
                           (lit "Name::0"))) (lit "ستون-2") Hne).
  - exact (proj1 (proj1 (proj2 (proj2 (toggleColumn_twice_restores
             exampleState (buildColumnKey (Some (lit "Zed")) 5))))
             (Some (lit "Zed")) 5%nat eq_refl Habs)).
Defined.

Lemma empty_export_is_aborted_witness :
  rowsForExport renderZ asciiLower asIs nothingSelectedState = []
  /\ handleExport renderZ asciiLower asIs neverThrows nothingSelectedState
       exampleUi
     = ({| exportFilename := exportFilename exampleUi;
           isExporting := isExporting exampleUi;
           error := Some emptyExportMessage |}, []).
Proof.
  assert (Hsel : activeSheet nothingSelectedState = None
                 \/ selectedColumnIndices nothingSelectedState = [])
    by (right; reflexivity).
  pose proof (proj2 (proj1 (empty_export_is_aborted renderZ asciiLower asIs
                neverThrows nothingSelectedState exampleUi)) Hsel) as Hnil.
  split; [exact Hnil|].
  exact (proj2 (empty_export_is_aborted renderZ asciiLower asIs neverThrows
                  nothingSelectedState exampleUi) Hnil).
Defined.

Lemma header_row_is_always_exported_witness :
  activeSheet emptySheetState = Some emptySheet
  /\ selectedColumnIndices emptySheetState <> []
  /\ visibleRows renderZ asciiLower asIs emptySheetState = []
  /\ length (rowsForExport renderZ asciiLower asIs emptySheetState)
     = S (length (visibleRows renderZ asciiLower asIs emptySheetState))
  /\ rowsForExport renderZ asciiLower asIs emptySheetState
     = [List.map (fun idx => CString (headerCell emptySheetState idx))
          (selectedColumnIndices emptySheetState)].
Proof.
  assert (Ha : activeSheet emptySheetState = Some emptySheet) by reflexivity.
  assert (Hs : selectedColumnIndices emptySheetState <> [])
    by (vm_compute; discriminate).
  assert (Hv : visibleRows renderZ asciiLower asIs emptySheetState = [])
    by reflexivity.
  split; [exact Ha|]. split; [exact Hs|]. split; [exact Hv|]. split.
  - exact (proj1 (header_row_is_always_exported renderZ asciiLower asIs
                    neverThrows emptySheetState emptySheet exampleUi Ha Hs)).
  - exact (proj1 (proj2 (proj2 (header_row_is_always_exported renderZ
             asciiLower asIs neverThrows emptySheetState emptySheet exampleUi
             Ha Hs))) Hv).
Defined.

Lemma exported_filename_has_xlsx_suffix_witness :
  (endsWith (lit "report.xlsx") (lit ".xlsx") = true
   /\ exportName (lit "report.xlsx") = lit "report.xlsx")
  /\ (endsWith (lit "نتیجه") (lit ".xlsx") = false
      /\ exportName (lit "نتیجه") = lit "نتیجه" ++ lit ".xlsx").
Proof.
  split; (split; [reflexivity|]).
  - exact (proj1 (proj2 (proj2 (exported_filename_has_xlsx_suffix
             (number := Z) renderZ asciiLower asIs neverThrows
             (lit "report.xlsx")))) eq_refl).
  - exact (proj1 (proj2 (proj2 (proj2 (exported_filename_has_xlsx_suffix
             (number := Z) renderZ asciiLower asIs neverThrows
             (lit "نتیجه"))))) eq_refl).
Defined.

(** * The rest of the component *)

(** ** Trimming *)

Lemma trimStart_head (s : jsstring) (c : N) :
  head (trimStart s) = Some c -> isWhiteSpace c = false.
Proof.
  induction s as [|a s IH]; [done|]. cbn [trimStart].
  destruct (isWhiteSpace a) eqn:Ha; [done|]. cbn [head]. congruence.
Qed.

Lemma trimStart_fixed (s : jsstring) :
  (forall c, head s = Some c -> isWhiteSpace c = false) -> trimStart s = s.
Proof.
  destruct s as [|a s]; [done|]. intros H. cbn [trimStart].
  by rewrite (H a eq_refl).
Qed.

Lemma trimStart_suffix (s : jsstring) : exists w, s = w ++ trimStart s.
Proof.
  induction s as [|a s [w IH]]; [by exists []|]. cbn [trimStart].
  destruct (isWhiteSpace a); [|by exists []].
  exists (a :: w). cbn [app]. by rewrite <- IH.
Qed.

Lemma trim_fixed (s : jsstring) :
  (forall c, head s = Some c -> isWhiteSpace c = false) ->
  (forall c, head (rev s) = Some c -> isWhiteSpace c = false) ->
  trim s = s.
Proof.
  intros Hh Hl. unfold trim, trimEnd.
  by rewrite (trimStart_fixed s Hh), (trimStart_fixed (rev s) Hl), rev_involutive.
Qed.

Lemma trim_last (s : jsstring) (c : N) :
  head (rev (trim s)) = Some c -> isWhiteSpace c = false.
Proof.
  unfold trim, trimEnd. rewrite rev_involutive. apply trimStart_head.
Qed.

Lemma trim_head (s : jsstring) (c : N) :
  head (trim s) = Some c -> isWhiteSpace c = false.
Proof.
  unfold trim, trimEnd.
  destruct (trimStart_suffix (rev (trimStart s))) as [w Hw].
  intros Hc. apply (trimStart_head s).
  apply (f_equal (@rev N)) in Hw.
  rewrite rev_involutive, rev_app_distr in Hw. rewrite Hw.
  destruct (rev (trimStart (rev (trimStart s)))) as [|a u]; [done|].
  exact Hc.
Qed.

Lemma trim_idem (s : jsstring) : trim (trim s) = trim s.
Proof. apply trim_fixed; [apply trim_head | apply trim_last]. Qed.

Lemma digits_not_space (d : Decimal.uint) (c : N) :
  c ∈ digits d -> isWhiteSpace c = false.
Proof.
  induction d; cbn [digits]; intros Hc;
    [by apply elem_of_nil in Hc | ..];
    (apply elem_of_cons in Hc as [-> | Hc]; [reflexivity | by apply IHd]).
Qed.

Lemma decimal_nonempty (n : nat) : decimal n <> [].
Proof.
  unfold decimal.
  assert (Hn : Nat.to_uint n <> Nil).
  { rewrite <- (Unsigned.of_to n) at 1. rewrite Unsigned.to_of.
    apply DecimalFacts.unorm_nonnil. }
  by destruct (Nat.to_uint n).
Qed.

Lemma placeholder_trimmed (n : nat) :
  trim (lit "ستون " ++ decimal n) = lit "ستون " ++ decimal n.
Proof.
  apply trim_fixed.
  - intros c Hc. vm_compute in Hc. by injection Hc as <-.
  - intros c Hc. rewrite rev_app_distr in Hc.
    pose proof (decimal_nonempty n) as Hne.
    destruct (rev (decimal n)) as [|a r] eqn:Hr.
    + apply (f_equal (@rev N)) in Hr. by rewrite rev_involutive in Hr.
    + cbn [app head] in Hc. injection Hc as <-.
      apply (digits_not_space (Nat.to_uint n)). fold (decimal n).
      rewrite list_elem_of_In. apply in_rev.
      rewrite Hr. by left.
Qed.

(** A header that is filled and carries no surrounding white space gives the
    key made of its own text. *)
Lemma buildColumnKey_filled (h : jsstring) (index : nat) :
  h <> [] -> trim h = h ->
  buildColumnKey (Some h) index = h ++ lit "::" ++ decimal index.
Proof.
  intros Hne Ht. unfold buildColumnKey. rewrite Ht. by destruct h.
Qed.

(** X16.  The key of a column does not depend on white space around its
    header: a header and its trimmed text give the same key at the same
    position, and the placeholder key is given exactly to the headers that
    are blank after trimming. *)
Theorem buildColumnKey_ignores_surrounding_space (h : jsstring) (index : nat) :
  buildColumnKey (Some (trim h)) index = buildColumnKey (Some h) index
  /\ (trim h = [] ->
      buildColumnKey (Some h) index = lit "ستون-" ++ decimal (index + 1))
  /\ (trim h <> [] ->
      buildColumnKey (Some h) index = trim h ++ lit "::" ++ decimal index).
Proof.
  unfold buildColumnKey. rewrite trim_idem. split; [done|].
  split; intros Ht; by destruct (trim h).
Qed.

(** ** Loading a workbook *)

Section LoadProperties.

Context {number : Type}.
Variable Number_toString : number -> jsstring.
Variable toLocaleLowerCase_fa : jsstring -> jsstring.
Variable normalize_NFKD : jsstring -> jsstring.
Variable XLSX_throws : @writerCall number -> bool.

Implicit Types (st : @AgentState number) (sheet : @RawSheetData number)
  (row : list (@cell number)).

Local Abbreviation visibleRows' :=
  (visibleRows Number_toString toLocaleLowerCase_fa normalize_NFKD).
Local Abbreviation rowsForExport' :=
  (rowsForExport Number_toString toLocaleLowerCase_fa normalize_NFKD).
Local Abbreviation handleExport' :=
  (handleExport Number_toString toLocaleLowerCase_fa normalize_NFKD XLSX_throws).
Local Abbreviation headerOfCell' := (headerOfCell Number_toString).
Local Abbreviation sheetOfRows' := (sheetOfRows Number_toString).
Local Abbreviation readWorkbookFile' := (readWorkbookFile Number_toString).

Lemma headerOfCell_filled (idx : nat) (c : @cell number) :
  headerOfCell' idx c <> [] /\ trim (headerOfCell' idx c) = headerOfCell' idx c.
Proof.
  unfold headerOfCell. cbv zeta.
  destruct (trim (String_of Number_toString c)) as [|a t] eqn:Ht; cbn [truthy].
  - split; [|apply placeholder_trimmed].
    intros H. apply (f_equal (@length N)) in H. by vm_compute in H.
  - split; [done|]. rewrite <- Ht. apply trim_idem.
Qed.

Lemma Array_at_first {A : Type} (x : A) (l : list A) :
  Array_at (x :: l) 0 = Some x.
Proof. rewrite Array_at_in_range; [done|]. cbn [length]. lia. Qed.

Lemma Array_at_nil {A : Type} (index : Z) : Array_at (@nil A) index = None.
Proof. apply Array_at_out_of_range. cbn [length]. lia. Qed.

Lemma filter_all {A : Type} (f : A -> bool) (l : list A) :
  (forall x, In x l -> f x = true) -> List.filter f l = l.
Proof.
  induction l as [|x l IH]; intros H; [done|]. cbn [List.filter].
  rewrite (H x) by (by left). f_equal. apply IH. intros y Hy. apply H. by right.
Qed.

Lemma all_selected st sheet :
  activeSheet st = Some sheet ->
  (forall k, k ∈ keysOf (headers sheet) ->
             reads_truthy (selectedColumns st) k = true) ->
  selectedColumnIndices st = seq 0 (length (headers sheet)).
Proof.
  intros Hactive Hall. rewrite (selectedColumnIndices_spec _ _ Hactive).
  unfold spec_selectedIndices. apply filter_all.
  intros idx [_ Hidx]%in_seq. cbn in Hidx.
  destruct (lookup_lt_is_Some_2 (headers sheet) idx Hidx) as [h Hh].
  rewrite Hh. apply Hall, list_elem_of_lookup. exists idx.
  by rewrite keysOf_lookup, Hh.
Qed.

Lemma setWorkbook_first fileName sheet (more : list (@RawSheetData number)) st :
  setWorkbook fileName (sheet :: more) st =
    {| workbookName := fileName; sheets := sheet :: more;
       activeSheetIndex := 0%Z;
       selectedColumns := selectAll (headers sheet) 0 ∅;
       columnAliases := ∅; searchTerm := [] |}.
Proof. unfold setWorkbook. by rewrite Array_at_first. Qed.

Lemma setWorkbook_selected fileName sheet (more : list (@RawSheetData number))
    st :
  activeSheet (setWorkbook fileName (sheet :: more) st) = Some sheet
  /\ selectedColumnIndices (setWorkbook fileName (sheet :: more) st)
     = seq 0 (length (headers sheet)).
Proof.
  assert (Ha : activeSheet (setWorkbook fileName (sheet :: more) st)
               = Some sheet).
  { rewrite setWorkbook_first. unfold activeSheet.
    cbn [sheets activeSheetIndex]. apply Array_at_first. }
  split; [done|]. apply (all_selected _ _ Ha).
  intros k Hk. rewrite setWorkbook_first. cbn [selectedColumns].
  unfold reads_truthy. by rewrite selectAll_keysOf, bool_decide_eq_true_2.
Qed.

(** X1.  Loading a workbook that has a first sheet makes that sheet the
    active one with every column selected: the selected indices are all the
    positions of its headers, all its rows are visible, and nothing of the
    state before the load is left. *)
Theorem load_selects_every_column fileName sheet
    (more : list (@RawSheetData number)) st0 :
  let st := setWorkbook fileName (sheet :: more) st0 in
  activeSheet st = Some sheet
  /\ columnKeys st = keysOf (headers sheet)
  /\ selectedColumnIndices st = seq 0 (length (headers sheet))
  /\ selectedColumnCount st = length (headers sheet)
  /\ visibleRows' st = rows sheet
  /\ visibleRowCount Number_toString toLocaleLowerCase_fa normalize_NFKD st
     = length (rows sheet)
  /\ hasWorkbook st = true
  /\ st = setWorkbook fileName (sheet :: more) initialState.
Proof.
  intros st. subst st.
  destruct (setWorkbook_selected fileName sheet more st0) as [Ha Hsel].
  assert (Hvis : visibleRows' (setWorkbook fileName (sheet :: more) st0)
                 = rows sheet).
  { unfold visibleRows. rewrite Ha. by rewrite setWorkbook_first. }
  split; [done|]. split; [by apply columnKeys_active|]. split; [done|].
  split; [unfold selectedColumnCount; by rewrite Hsel, length_seq|].
  split; [done|]. split; [unfold visibleRowCount; by rewrite Hvis|].
  split; [by rewrite setWorkbook_first|]. by rewrite !setWorkbook_first.
Qed.

Lemma no_sheets_no_active st : sheets st = [] -> activeSheet st = None.
Proof. intros H. unfold activeSheet. rewrite H. apply Array_at_nil. Qed.

(** X2.  While the store holds no sheet, as after [reset] or after loading
    a workbook without sheets, there is no active sheet, no column key, no
    visible row and no preview row, the panel is not shown, the export
    matrix is empty and triggering the export only sets the error message,
    without a call to the writer. *)
Theorem no_sheets_nothing_to_export st (u : ExportUi) :
  sheets st = [] ->
  activeSheet st = None
  /\ columnKeys st = []
  /\ selectedColumnIndices st = []
  /\ visibleRows' st = []
  /\ previewRows Number_toString st = []
  /\ rowsForExport' st = []
  /\ hasWorkbook st = false
  /\ panelShown st = false
  /\ handleExport' st u =
       ({| exportFilename := exportFilename u; isExporting := isExporting u;
           error := Some emptyExportMessage |}, [])
  /\ (forall fileName st1, sheets (setWorkbook fileName [] st1) = [])
  /\ (forall st1 : @AgentState number, sheets (reset st1) = []).
Proof.
  intros Hs. pose proof (no_sheets_no_active _ Hs) as Ha.
  assert (Hk : columnKeys st = []).
  { unfold columnKeys, activeHeaders. by rewrite Ha. }
  assert (Hr : rowsForExport' st = []).
  { unfold rowsForExport. by rewrite Ha. }
  split; [done|]. split; [done|].
  split; [unfold selectedColumnIndices; by rewrite Hk|].
  split; [unfold visibleRows; by rewrite Ha|].
  split; [unfold previewRows; by rewrite Ha|].
  split; [done|].
  split; [unfold hasWorkbook; by rewrite Hs|].
  split; [unfold panelShown, hasWorkbook; by rewrite Hs|].
  split; [unfold handleExport; by rewrite Hr|]. done.
Qed.

(** *** Sheets as the parser hands them over *)

Lemma sheetOfRows_headers sheetName (rs : list (list (@cell number))) :
  headers (sheetOfRows' sheetName rs) = imap headerOfCell' (hd [] rs)
  /\ rows (sheetOfRows' sheetName rs) = tl rs
  /\ name (sheetOfRows' sheetName rs) = sheetName.
Proof. by destruct rs. Qed.

Lemma sheetOfRows_header_filled sheetName (rs : list (list (@cell number)))
    (h : jsstring) :
  h ∈ headers (sheetOfRows' sheetName rs) -> h <> [] /\ trim h = h.
Proof.
  rewrite (proj1 (sheetOfRows_headers sheetName rs)).
  intros [idx Hidx]%list_elem_of_lookup.
  apply list_lookup_imap_Some in Hidx as (c & _ & ->).
  apply headerOfCell_filled.
Qed.

(** X3.  A sheet built by [readWorkbookFile] takes its headers from the
    first row and keeps the other rows as they are; an empty sheet gives no
    header and no row.  Every header is filled and free of surrounding white
    space: it is the trimmed text of its cell, or the 1-based placeholder
    "ستون N" when that text is blank. *)
Theorem parsed_headers_are_filled sheetName (rs : list (list (@cell number)))
    (idx : nat) (h : jsstring) :
  headers (sheetOfRows' sheetName rs) !! idx = Some h ->
  h <> [] /\ trim h = h
  /\ (exists c, hd [] rs !! idx = Some c
        /\ h = if truthy (trim (String_of Number_toString c))
               then trim (String_of Number_toString c)
               else lit "ستون " ++ decimal (idx + 1))
  /\ length (headers (sheetOfRows' sheetName rs)) = length (hd [] rs)
  /\ rows (sheetOfRows' sheetName rs) = tl rs
  /\ headers (sheetOfRows' sheetName []) = []
  /\ rows (sheetOfRows' sheetName []) = [].
Proof.
  intros Hh.
  assert (Hin : h ∈ headers (sheetOfRows' sheetName rs)).
  { apply list_elem_of_lookup. by exists idx. }
  destruct (sheetOfRows_header_filled _ _ _ Hin) as [Hne Ht].
  destruct (sheetOfRows_headers sheetName rs) as (Hhs & Hrs & _).
  split; [done|]. split; [done|]. rewrite Hhs in *.
  split; [|by rewrite length_imap].
  apply list_lookup_imap_Some in Hh as (c & Hc & ->). by exists c.
Qed.

End LoadProperties.

(** ** Editing the view *)

Section EditProperties.

Context {number : Type}.
Variable Number_toString : number -> jsstring.
Variable toLocaleLowerCase_fa : jsstring -> jsstring.
Variable normalize_NFKD : jsstring -> jsstring.
Variable XLSX_throws : @writerCall number -> bool.

Implicit Types (st : @AgentState number) (sheet : @RawSheetData number)
  (row : list (@cell number)).

Local Abbreviation normalizeForSearch' :=
  (normalizeForSearch Number_toString toLocaleLowerCase_fa normalize_NFKD).
Local Abbreviation rowMatches' :=
  (rowMatches Number_toString toLocaleLowerCase_fa normalize_NFKD).
Local Abbreviation visibleRows' :=
  (visibleRows Number_toString toLocaleLowerCase_fa normalize_NFKD).
Local Abbreviation rowsForExport' :=
  (rowsForExport Number_toString toLocaleLowerCase_fa normalize_NFKD).
Local Abbreviation handleExport' :=
  (handleExport Number_toString toLocaleLowerCase_fa normalize_NFKD XLSX_throws).
Local Abbreviation headerOfCell' := (headerOfCell Number_toString).
Local Abbreviation readWorkbookFile' := (readWorkbookFile Number_toString).
Local Abbreviation previewRows' := (previewRows Number_toString).

Lemma selected_elem_of st sheet (idx : nat) :
  activeSheet st = Some sheet ->
  idx ∈ selectedColumnIndices st
  <-> exists h, headers sheet !! idx = Some h
        /\ reads_truthy (selectedColumns st) (buildColumnKey (Some h) idx)
           = true.
Proof.
  intros Ha. rewrite (selectedColumnIndices_spec _ _ Ha).
  apply spec_selectedIndices_elem_of.
Qed.

Lemma headerCell_no_alias st sheet (idx : nat) (h : jsstring) :
  activeSheet st = Some sheet ->
  headers sheet !! idx = Some h ->
  columnAliases st !! buildColumnKey (Some h) idx = None ->
  headerCell st idx = if truthy h then h else lit "ستون " ++ decimal (idx + 1).
Proof.
  intros Ha Hh Hal. rewrite (headerCell_spec _ _ _ _ Ha Hh).
  unfold spec_headerEntry. cbv zeta. rewrite Hh, Hal.
  cbn [fmap option_fmap option_map]. by destruct h.
Qed.

(** X4.  Once a parsed workbook is loaded, the key of every column of the
    first sheet is the header text followed by "::" and the position, never
    the placeholder key; the column is selected and its export header is the
    header text itself. *)
Theorem parsed_columns_are_keyed_by_header fileName sheetName
    (rs : list (list (@cell number))) (more : parsedWorkbook) st0
    (idx : nat) (h : jsstring) :
  let st := setWorkbook fileName
              (readWorkbookFile' ((sheetName, rs) :: more)) st0 in
  activeHeaders st !! idx = Some h ->
  columnKeys st !! idx = Some (h ++ lit "::" ++ decimal idx)
  /\ headerCell st idx = h
  /\ idx ∈ selectedColumnIndices st
  /\ selectedColumns st !! (h ++ lit "::" ++ decimal idx) = Some true.
Proof.
  intros st. subst st. cbn [readWorkbookFile List.map fst snd].
  set (sheet := sheetOfRows Number_toString sheetName rs).
  set (others := List.map _ more).
  destruct (setWorkbook_selected fileName sheet others st0) as [Ha Hsel].
  unfold activeHeaders. rewrite Ha. intros Hh.
  assert (Hfill : h <> [] /\ trim h = h).
  { apply (sheetOfRows_header_filled Number_toString sheetName rs).
    apply list_elem_of_lookup. by exists idx. }
  destruct Hfill as [Hne Ht].
  pose proof (buildColumnKey_filled h idx Hne Ht) as Hkey.
  assert (Hk : columnKeys (setWorkbook fileName (sheet :: others) st0) !! idx
               = Some (h ++ lit "::" ++ decimal idx)).
  { rewrite (columnKeys_active _ _ Ha), keysOf_lookup, Hh.
    cbn [fmap option_fmap option_map]. by rewrite Hkey. }
  split; [done|]. split; [|split].
  - rewrite (headerCell_no_alias _ _ _ _ Ha Hh).
    + by destruct h.
    + by rewrite setWorkbook_first.
  - rewrite Hsel. apply list_elem_of_In, in_seq.
    apply lookup_lt_Some in Hh. lia.
  - rewrite setWorkbook_first. cbn [selectedColumns].
    rewrite selectAll_keysOf, bool_decide_eq_true_2; [done|].
    apply list_elem_of_lookup. exists idx.
    by rewrite keysOf_lookup, Hh, <- Hkey.
Qed.

Lemma cellAt_whole_row (pre row : list (@cell number)) :
  (forall c, c ∈ row -> c <> CNull /\ c <> CUndefined) ->
  List.map (cellAt (pre ++ row)) (seq (length pre) (length row)) = row.
Proof.
  revert pre. induction row as [|c row IH]; intros pre Hrow; [done|].
  cbn [length seq List.map]. f_equal.
  - unfold cellAt. rewrite list_lookup_middle by done.
    destruct (Hrow c) as [Hn Hu]; [by left|]. by destruct c.
  - specialize (IH (pre ++ [c])).
    rewrite <- app_assoc, length_app, Nat.add_1_r in IH. apply IH.
    intros c' Hc'. apply Hrow. by right.
Qed.

Lemma map_seq_lookup {A B : Type} (g : nat -> B) (f : A -> B) (l : list A) :
  (forall i x, l !! i = Some x -> g i = f x) ->
  List.map g (seq 0 (length l)) = List.map f l.
Proof.
  induction l as [|x l IH] using rev_ind; intros H; [done|].
  rewrite length_app, seq_app, !map_app. cbn [length seq List.map].
  f_equal.
  - apply IH. intros i y Hy. apply H. by apply lookup_app_l_Some.
  - f_equal. apply H. rewrite Nat.add_0_l. apply list_lookup_middle. done.
Qed.

(** X5.  Loading a parsed workbook and exporting at once, with no edit in
    between, writes the first sheet back: when the first row is not empty
    and every other row is as long as it and holds no [null] or [undefined]
    cell, the export matrix is the header row followed by those rows
    unchanged. *)
Theorem load_then_export_gives_sheet_back fileName sheetName
    (first : list (@cell number)) (rest : list (list (@cell number)))
    (more : parsedWorkbook) st0 :
  first <> [] ->
  (forall row, row ∈ rest ->
     length row = length first
     /\ forall c, c ∈ row -> c <> CNull /\ c <> CUndefined) ->
  rowsForExport'
    (setWorkbook fileName
       (readWorkbookFile' ((sheetName, first :: rest) :: more)) st0)
  = List.map CString (imap headerOfCell' first) :: rest.
Proof.
  intros Hfirst Hrect. cbn [readWorkbookFile List.map fst snd sheetOfRows].
  set (sheet := {| name := sheetName; headers := imap headerOfCell' first;
                   rows := rest |}).
  set (others := List.map _ more).
  destruct (setWorkbook_selected fileName sheet others st0) as [Ha Hsel].
  assert (Hlen : length (headers sheet) = length first)
    by apply length_imap.
  rewrite (rowsForExport_selected _ _ _ _ _ Ha).
  2:{ rewrite Hsel, Hlen. by destruct first. }
  rewrite Hsel. f_equal.
  - apply map_seq_lookup. intros idx h Hh. f_equal.
    rewrite (headerCell_no_alias _ _ _ _ Ha Hh);
      [|by rewrite setWorkbook_first].
    assert (Hne : h <> []).
    { apply list_lookup_imap_Some in Hh as (c & _ & ->).
      apply headerOfCell_filled. }
    by destruct h.
  - unfold visibleRows. rewrite Ha, setWorkbook_first.
    cbn [searchTerm trim trimStart trimEnd rev truthy negb rows sheet].
    rewrite <- (map_id rest) at 2. apply map_ext_in. intros row Hrow.
    destruct (Hrect row) as [Hl Hc]; [by apply list_elem_of_In|].
    rewrite Hlen, <- Hl. apply (cellAt_whole_row [] row Hc).
Qed.

(** X6.  Clicking the check box of a column flips that column and no other:
    after [toggleColumn] on the key of position [i], [i] is among the
    selected indices exactly when it was not before, every other position
    keeps its state, and the column keys and the visible rows are
    untouched. *)
Theorem toggle_flips_one_column st sheet (i : nat) (h : jsstring) :
  activeSheet st = Some sheet ->
  headers sheet !! i = Some h ->
  let st' := toggleColumn (buildColumnKey (Some h) i) st in
  (i ∈ selectedColumnIndices st' <-> i ∉ selectedColumnIndices st)
  /\ (forall j, j <> i ->
        (j ∈ selectedColumnIndices st' <-> j ∈ selectedColumnIndices st))
  /\ columnKeys st' = columnKeys st
  /\ visibleRows' st' = visibleRows' st.
Proof.
  intros Ha Hh st'.
  assert (Ha' : activeSheet st' = Some sheet) by exact Ha.
  split; [|split; [|done]].
  - rewrite (selected_elem_of _ _ _ Ha'), (selected_elem_of _ _ _ Ha).
    subst st'. cbn [toggleColumn selectedColumns].
    split.
    + intros (h' & Hh' & Hr) (h'' & Hh'' & Hr'').
      rewrite Hh in Hh', Hh''. injection Hh' as <-. injection Hh'' as <-.
      rewrite reads_truthy_insert, decide_True in Hr by done.
      by rewrite Hr'' in Hr.
    + intros Hnot. exists h. split; [done|].
      rewrite reads_truthy_insert, decide_True by done.
      apply negb_true_iff, not_true_is_false. intros Hr. apply Hnot.
      by exists h.
  - intros j Hj.
    rewrite (selected_elem_of _ _ _ Ha'), (selected_elem_of _ _ _ Ha).
    subst st'. cbn [toggleColumn selectedColumns].
    assert (Hkey : forall hj, buildColumnKey (Some h) i
                              <> buildColumnKey (Some hj) j).
    { intros hj Heq. by apply buildColumnKey_inj_index in Heq. }
    split; intros (hj & Hhj & Hr); exists hj; (split; [done|]).
    + by rewrite reads_truthy_insert, decide_False in Hr by apply Hkey.
    + by rewrite reads_truthy_insert, decide_False by apply Hkey.
Qed.

(** X7.  Typing an alias for a column changes the export header of that
    column and of no other: the header becomes the trimmed alias, or stays
    the header text (the placeholder for an empty header) when the alias is
    blank.  The selection, the visible rows and the data rows of the export
    stay as they were. *)
Theorem alias_renames_one_header st sheet (i : nat) (h alias : jsstring) :
  activeSheet st = Some sheet ->
  headers sheet !! i = Some h ->
  let st' := setColumnAlias (buildColumnKey (Some h) i) alias st in
  headerCell st' i =
    (if truthy (trim alias) then trim alias
     else if truthy h then h else lit "ستون " ++ decimal (i + 1))
  /\ (forall j hj, headers sheet !! j = Some hj -> j <> i ->
        headerCell st' j = headerCell st j)
  /\ selectedColumnIndices st' = selectedColumnIndices st
  /\ visibleRows' st' = visibleRows' st
  /\ tail (rowsForExport' st') = tail (rowsForExport' st).
Proof.
  intros Ha Hh st'.
  assert (Ha' : activeSheet st' = Some sheet) by exact Ha.
  split; [|split; [|split; [done|split; [done|]]]].
  - rewrite (headerCell_spec _ _ _ _ Ha' Hh). unfold spec_headerEntry.
    cbv zeta. rewrite Hh. subst st'. cbn [setColumnAlias columnAliases].
    rewrite lookup_insert_eq. cbn [fmap option_fmap option_map].
    destruct (trim alias); [|done]. by destruct h.
  - intros j hj Hhj Hj.
    rewrite (headerCell_spec _ _ _ _ Ha' Hhj), (headerCell_spec _ _ _ _ Ha Hhj).
    unfold spec_headerEntry. cbv zeta. rewrite Hhj.
    subst st'. cbn [setColumnAlias columnAliases].
    rewrite lookup_insert_ne; [done|].
    intros Heq. by apply buildColumnKey_inj_index in Heq.
  - unfold rowsForExport. rewrite Ha', Ha.
    change (selectedColumnIndices st') with (selectedColumnIndices st).
    by destruct (selectedColumnIndices st).
Qed.

Lemma filter_sublist_mono {A : Type} (f g : A -> bool) (l : list A) :
  (forall x, f x = true -> g x = true) ->
  List.filter f l `sublist_of` List.filter g l.
Proof.
  intros Hfg. induction l as [|x l IH]; [done|]. cbn [List.filter].
  destruct (f x) eqn:Hf.
  - rewrite (Hfg x Hf). by apply sublist_skip.
  - destruct (g x); [by apply sublist_cons | done].
Qed.

Lemma filter_sublist {A : Type} (f : A -> bool) (l : list A) :
  List.filter f l `sublist_of` l.
Proof.
  induction l as [|x l IH]; [done|]. cbn [List.filter].
  destruct (f x); [by apply sublist_skip | by apply sublist_cons].
Qed.

Lemma rowMatches_mono (v1 v2 : jsstring) row :
  occursIn v1 v2 -> rowMatches' v2 row = true -> rowMatches' v1 row = true.
Proof.
  intros (p & q & ->). unfold rowMatches. rewrite !existsb_exists.
  intros (c & Hin & Hc). exists c. split; [done|].
  apply includes_spec in Hc as (pre & post & Hc). apply includes_spec.
  exists (pre ++ p), (q ++ post). rewrite Hc. by rewrite <- !app_assoc.
Qed.

(** X8.  Extending the search narrows the table: when two search terms are
    not blank and the normalised first one occurs in the normalised second
    one, the rows visible for the second are an order-preserving sublist of
    the rows visible for the first.  For any term the visible rows are an
    order-preserving sublist of the rows visible with an empty search box,
    and the term changes neither the column keys nor the selection. *)
Theorem longer_search_term_narrows_rows st (t1 t2 : jsstring) :
  trim t1 <> [] -> trim t2 <> [] ->
  occursIn (normalizeForSearch' (CString t1)) (normalizeForSearch' (CString t2)) ->
  visibleRows' (setSearchTerm t2 st) `sublist_of` visibleRows' (setSearchTerm t1 st)
  /\ visibleRows' (setSearchTerm t1 st) `sublist_of` visibleRows' (setSearchTerm [] st)
  /\ (length (visibleRows' (setSearchTerm t2 st))
      <= length (visibleRows' (setSearchTerm t1 st)))%nat
  /\ columnKeys (setSearchTerm t2 st) = columnKeys st
  /\ selectedColumnIndices (setSearchTerm t2 st) = selectedColumnIndices st.
Proof.
  intros Ht1 Ht2 Hocc.
  assert (Hsub : visibleRows' (setSearchTerm t2 st)
                 `sublist_of` visibleRows' (setSearchTerm t1 st)).
  { unfold visibleRows.
    change (activeSheet (setSearchTerm t2 st)) with (activeSheet st).
    change (activeSheet (setSearchTerm t1 st)) with (activeSheet st).
    destruct (activeSheet st) as [sheet|]; [|done].
    cbn [setSearchTerm searchTerm].
    destruct (trim t1); [done|]. destruct (trim t2); [done|].
    cbn [truthy negb]. apply filter_sublist_mono.
    intros row. by apply rowMatches_mono. }
  split; [done|]. split; [|split; [by apply sublist_length|done]].
  unfold visibleRows.
  change (activeSheet (setSearchTerm t1 st)) with (activeSheet st).
  change (activeSheet (setSearchTerm [] st)) with (activeSheet st).
  destruct (activeSheet st) as [sheet|]; [|done].
  cbn [setSearchTerm searchTerm]. destruct (trim t1); [done|].
  cbn [truthy negb]. apply filter_sublist.
Qed.

(** X9.  The preview table shows the first rows of the active sheet as they
    are stored, at most eight of them, each cell as [String(cell ?? "")]:
    it does not follow the search term, the selection or the aliases. *)
Theorem preview_is_first_eight_rows_unfiltered st sheet :
  activeSheet st = Some sheet ->
  length (previewRows' st) = Nat.min 8 (length (rows sheet))
  /\ (forall r row, (r < 8)%nat -> rows sheet !! r = Some row ->
        previewRows' st !! r
        = Some (List.map (String_of Number_toString) row))
  /\ (forall r, (8 <= r)%nat -> previewRows' st !! r = None)
  /\ (forall term, previewRows' (setSearchTerm term st) = previewRows' st)
  /\ (forall key, previewRows' (toggleColumn key st) = previewRows' st)
  /\ (forall key alias,
        previewRows' (setColumnAlias key alias st) = previewRows' st).
Proof.
  intros Ha. unfold previewRows.
  split; [|split; [|split; [|done]]].
  - rewrite Ha. by rewrite length_map, length_take.
  - intros r row Hr Hrow. rewrite Ha.
    change (List.map ?f ?l) with (f <$> l) at 1.
    by rewrite list_lookup_fmap, lookup_take_lt, Hrow.
  - intros r Hr. rewrite Ha.
    change (List.map ?f ?l) with (f <$> l) at 1.
    by rewrite list_lookup_fmap, lookup_take_ge.
Qed.

(** *** Export *)

Lemma exportName_ends (filename : jsstring) :
  endsWith (exportName filename) (lit ".xlsx") = true.
Proof.
  unfold exportName.
  destruct (endsWith filename (lit ".xlsx")) eqn:He; [done|].
  apply endsWith_spec. by exists filename.
Qed.

(** X10.  Completing the file name is idempotent, and it only ever adds
    text at the end: the completed name starts with the name typed and is
    at most five code units longer. *)
Theorem exportName_is_idempotent (filename : jsstring) :
  exportName (exportName filename) = exportName filename
  /\ (exists ext, exportName filename = filename ++ ext
                 /\ (ext = [] \/ ext = lit ".xlsx"))
  /\ (length filename <= length (exportName filename)
      <= length filename + 5)%nat.
Proof.
  split; [|split].
  - unfold exportName at 1. by rewrite exportName_ends.
  - unfold exportName. destruct (endsWith filename (lit ".xlsx")).
    + exists []. split; [by rewrite app_nil_r | by left].
    + exists (lit ".xlsx"). split; [done | by right].
  - unfold exportName. destruct (endsWith filename (lit ".xlsx")); [lia|].
    rewrite length_app. change (length (lit ".xlsx")) with 5%nat. lia.
Qed.

(** X11.  Whatever the matrix and the writer do, [handleExport] calls the
    writer at most once, only with a matrix that is not empty, under the
    sheet label "نتیجه" and a file name ending in ".xlsx"; it keeps the
    file name typed by the user, never leaves the busy flag set once it has
    called the writer, and leaves no error message exactly when the matrix
    was not empty and the writer did not throw. *)
Theorem handleExport_outcomes st (u : ExportUi) :
  let r := handleExport' st u in
  (length (snd r) <= 1)%nat
  /\ (forall call, call ∈ snd r ->
        call = WriteFile (lit "نتیجه") (rowsForExport' st)
                 (exportName (exportFilename u))
        /\ rowsForExport' st <> []
        /\ endsWith (exportName (exportFilename u)) (lit ".xlsx") = true
        /\ isExporting (fst r) = false)
  /\ (snd r = [] <-> rowsForExport' st = [])
  /\ (snd r = [] -> isExporting (fst r) = isExporting u
                    /\ error (fst r) = Some emptyExportMessage)
  /\ exportFilename (fst r) = exportFilename u
  /\ (error (fst r) = None
      <-> rowsForExport' st <> []
          /\ XLSX_throws (downloadWorkbook (rowsForExport' st)
                            (exportFilename u)) = false).
Proof.
  intros r. subst r.
  destruct (rowsForExport' st) as [|hd tl] eqn:Hrows.
  - unfold handleExport. rewrite Hrows. cbn [length Nat.eqb fst snd].
    split; [cbn; lia|]. split; [by intros call Hc%elem_of_nil|].
    split; [done|]. split; [done|]. split; [done|].
    cbn [error]. split; [done | by intros [? _]].
  - rewrite handleExport_nonempty by (by rewrite Hrows). rewrite Hrows.
    cbv zeta. cbn [fst snd length isExporting error exportFilename].
    split; [lia|]. split.
    { intros call Hc%list_elem_of_singleton. subst call.
      split; [done|]. split; [done|]. split; [apply exportName_ends|done]. }
    split; [done|]. split; [done|]. split; [done|].
    destruct (XLSX_throws _); split; try done. by intros [_ ?].
Qed.

(** *** Indices counted from the end *)

Lemma headerCell_ext st1 st2 (idx : nat) :
  activeSheet st1 = activeSheet st2 ->
  columnAliases st1 = columnAliases st2 ->
  headerCell st1 idx = headerCell st2 idx.
Proof.
  intros Ha Hal. unfold headerCell, columnKeys, activeHeaders.
  by rewrite Ha, Hal.
Qed.

Lemma projection_ext st1 st2 :
  activeSheet st1 = activeSheet st2 ->
  selectedColumns st1 = selectedColumns st2 ->
  columnAliases st1 = columnAliases st2 ->
  searchTerm st1 = searchTerm st2 ->
  columnKeys st1 = columnKeys st2
  /\ selectedColumnIndices st1 = selectedColumnIndices st2
  /\ visibleRows' st1 = visibleRows' st2
  /\ rowsForExport' st1 = rowsForExport' st2.
Proof.
  intros Ha Hsel Hal Hterm.
  assert (Hk : columnKeys st1 = columnKeys st2).
  { unfold columnKeys, activeHeaders. by rewrite Ha. }
  assert (Hi : selectedColumnIndices st1 = selectedColumnIndices st2).
  { unfold selectedColumnIndices. by rewrite Hk, Hsel. }
  assert (Hv : visibleRows' st1 = visibleRows' st2).
  { unfold visibleRows. by rewrite Ha, Hterm. }
  assert (Hh : forall idx, headerCell st1 idx = headerCell st2 idx)
    by (intros idx; by apply headerCell_ext).
  split; [done|]. split; [done|]. split; [done|].
  unfold rowsForExport. rewrite Ha, Hi, Hv.
  destruct (activeSheet st2); [|done].
  destruct (length (selectedColumnIndices st2) =? 0)%nat; [done|].
  f_equal. apply map_ext. intros idx. f_equal. apply Hh.
Qed.

(** X13.  With [n] sheets loaded and [0 <= j < n], [setActiveSheetIndex]
    at [j - n] activates the same sheet as at [j]: column keys, selection,
    visible rows and export matrix agree.  The stored index differs, so the
    tab of the sheet is drawn as active after the call at [j] and no tab is
    after the call at [j - n]. *)
Theorem index_from_end_shows_same_sheet st (j : Z) :
  (0 <= j < Z.of_nat (length (sheets st)))%Z ->
  let a := setActiveSheetIndex j st in
  let b := setActiveSheetIndex (j - Z.of_nat (length (sheets st))) st in
  activeSheet b = activeSheet a
  /\ is_Some (activeSheet a)
  /\ columnKeys b = columnKeys a
  /\ selectedColumns b = selectedColumns a
  /\ selectedColumnIndices b = selectedColumnIndices a
  /\ visibleRows' b = visibleRows' a
  /\ rowsForExport' b = rowsForExport' a
  /\ tabHighlighted a (Z.to_nat j) = true
  /\ (forall i, tabHighlighted b i = false).
Proof.
  intros Hj a b.
  destruct (lookup_lt_is_Some_2 (sheets st) (Z.to_nat j)) as [sheet Hsheet];
    [lia|].
  assert (Hat : Array_at (sheets st) j = Some sheet)
    by (by rewrite Array_at_in_range).
  assert (Hat' : Array_at (sheets st) (j - Z.of_nat (length (sheets st)))
                 = Some sheet).
  { rewrite Array_at_from_end by lia. rewrite <- Hsheet. f_equal. lia. }
  assert (Ea : a = {| workbookName := workbookName st; sheets := sheets st;
                      activeSheetIndex := j;
                      selectedColumns := selectAll (headers sheet) 0 ∅;
                      columnAliases := ∅; searchTerm := [] |})
    by apply (setActiveSheetIndex_resolved _ _ _ Hat).
  assert (Eb : b = {| workbookName := workbookName st; sheets := sheets st;
                      activeSheetIndex := j - Z.of_nat (length (sheets st));
                      selectedColumns := selectAll (headers sheet) 0 ∅;
                      columnAliases := ∅; searchTerm := [] |})
    by apply (setActiveSheetIndex_resolved _ _ _ Hat').
  assert (Haa : activeSheet a = Some sheet).
  { rewrite Ea. unfold activeSheet. by cbn [sheets activeSheetIndex]. }
  assert (Hab : activeSheet b = Some sheet).
  { rewrite Eb. unfold activeSheet. by cbn [sheets activeSheetIndex]. }
  assert (Hext : columnKeys b = columnKeys a
                 /\ selectedColumnIndices b = selectedColumnIndices a
                 /\ visibleRows' b = visibleRows' a
                 /\ rowsForExport' b = rowsForExport' a).
  { apply projection_ext; [by rewrite Haa, Hab | by rewrite Ea, Eb ..]. }
  destruct Hext as (Hk & Hi & Hv & Hr).
  split; [by rewrite Haa, Hab|]. split; [by rewrite Haa|].
  split; [done|]. split; [by rewrite Ea, Eb|].
  split; [done|]. split; [done|]. split; [done|]. split.
  - rewrite Ea. unfold tabHighlighted. cbn [activeSheetIndex].
    apply Z.eqb_eq. lia.
  - intros i. rewrite Eb. unfold tabHighlighted. cbn [activeSheetIndex].
    apply Z.eqb_neq. lia.
Qed.

(** *** The counters under the search box *)

(** X15.  In every state the number of selected columns is at most the
    number of column keys, the selected indices are positions of column
    keys, in strictly ascending order, and the number of visible rows is at
    most the number of rows of the active sheet. *)
Theorem counters_are_bounded st :
  (selectedColumnCount st <= length (columnKeys st))%nat
  /\ (forall idx, idx ∈ selectedColumnIndices st ->
        (idx < length (columnKeys st))%nat)
  /\ StronglySorted lt (selectedColumnIndices st)
  /\ (visibleRowCount Number_toString toLocaleLowerCase_fa normalize_NFKD st
      <= length (from_option rows [] (activeSheet st)))%nat
  /\ (activeSheet st = None ->
      selectedColumnCount st = 0%nat
      /\ visibleRowCount Number_toString toLocaleLowerCase_fa normalize_NFKD st
         = 0%nat).
Proof.
  assert (Hpick : selectedColumnIndices st =
    List.filter
      (fun i => match columnKeys st !! i with
                | Some k => reads_truthy (selectedColumns st) k
                | None => false
                end)
      (seq 0 (length (columnKeys st)))).
  { unfold selectedColumnIndices.
    rewrite (pick_indices (reads_truthy (selectedColumns st))
               (columnKeys st) (fun i => i)).
    apply map_id. }
  split; [|split; [|split; [|split]]].
  - unfold selectedColumnCount. rewrite Hpick.
    etransitivity; [apply filter_length_le|]. by rewrite length_seq.
  - intros idx Hidx. rewrite Hpick in Hidx.
    apply list_elem_of_In, filter_In in Hidx as [[_ Hidx]%in_seq _]. lia.
  - rewrite Hpick. apply filter_seq_sorted.
  - unfold visibleRowCount, visibleRows.
    destruct (activeSheet st) as [sheet|]; [|done]. cbn [from_option].
    destruct (negb _); [done|]. apply filter_length_le.
  - intros Ha. unfold selectedColumnCount, visibleRowCount, visibleRows,
      selectedColumnIndices, columnKeys, activeHeaders. by rewrite Ha.
Qed.

End EditProperties.

(** ** Runs of events *)

Section RunProperties.

Context {number : Type}.
Variable Number_toString : number -> jsstring.
Variable toLocaleLowerCase_fa : jsstring -> jsstring.
Variable normalize_NFKD : jsstring -> jsstring.
Variable XLSX_throws : @writerCall number -> bool.

Implicit Types (st : @AgentState number) (sheet : @RawSheetData number)
  (c : @Component number) (ev : @event number).

Local Abbreviation rowsForExport' :=
  (rowsForExport Number_toString toLocaleLowerCase_fa normalize_NFKD).
Local Abbreviation handleExport' :=
  (handleExport Number_toString toLocaleLowerCase_fa normalize_NFKD XLSX_throws).
Local Abbreviation readWorkbookFile' := (readWorkbookFile Number_toString).
Local Abbreviation handle' :=
  (handle Number_toString toLocaleLowerCase_fa normalize_NFKD XLSX_throws).
Local Abbreviation handleAll' :=
  (handleAll Number_toString toLocaleLowerCase_fa normalize_NFKD XLSX_throws).

Lemma Array_at_elem_of {A : Type} (l : list A) (index : Z) (x : A) :
  Array_at l index = Some x -> x ∈ l.
Proof.
  intros H. pose proof (Array_at_Some_lt _ _ _ H) as Hr.
  destruct (Z.le_gt_cases 0 index).
  - rewrite Array_at_in_range in H by lia. by eapply list_elem_of_lookup_2.
  - rewrite Array_at_from_end in H by lia. by eapply list_elem_of_lookup_2.
Qed.

Lemma storeInvariant_initial : storeInvariant (@initialState number).
Proof.
  unfold storeInvariant. cbn [initialState activeSheetIndex sheets
    selectedColumns columnAliases].
  split; [done|]. split; [done|]. split; [done|]. split; [|split].
  - intros k. rewrite lookup_empty. split; [by intros [? ?]|].
    by intros ?%elem_of_nil.
  - intros k. rewrite lookup_empty. by intros [? ?].
  - by intros sheet h ?%elem_of_nil.
Qed.

Lemma selectAll_is_Some (hs : list jsstring) (k : jsstring) :
  is_Some (selectAll hs 0 ∅ !! k) <-> k ∈ keysOf hs.
Proof.
  rewrite selectAll_keysOf. by case_bool_decide; split; try done; intros [? ?].
Qed.

Lemma storeInvariant_setWorkbook fileName (wb : parsedWorkbook) st :
  storeInvariant (setWorkbook fileName (readWorkbookFile' wb) st).
Proof.
  assert (Hfill : forall sheet h, sheet ∈ readWorkbookFile' wb ->
                    h ∈ headers sheet -> h <> [] /\ trim h = h).
  { intros sheet h Hsheet Hh. unfold readWorkbookFile in Hsheet.
    apply list_elem_of_In, in_map_iff in Hsheet as ([sn rs] & <- & _).
    by eapply sheetOfRows_header_filled. }
  destruct (readWorkbookFile' wb) as [|sheet more] eqn:Hwb.
  - unfold storeInvariant, setWorkbook. rewrite Array_at_nil.
    cbn [activeSheetIndex sheets selectedColumns columnAliases selectAll].
    unfold columnKeys, activeHeaders, activeSheet.
    cbn [activeSheetIndex sheets]. rewrite Array_at_nil.
    split; [done|]. split; [done|]. split; [done|]. split; [|split].
    + intros k. rewrite lookup_empty. split; [by intros [? ?]|].
      by intros ?%elem_of_nil.
    + intros k. rewrite lookup_empty. by intros [? ?].
    + by intros s0 h ?%elem_of_nil.
  - destruct (setWorkbook_selected fileName sheet more st) as [Ha _].
    unfold storeInvariant. rewrite (columnKeys_active _ _ Ha).
    rewrite setWorkbook_first.
    cbn [activeSheetIndex sheets selectedColumns columnAliases length].
    split; [done|]. split; [lia|]. split; [done|]. split; [|split].
    + intros k. apply selectAll_is_Some.
    + intros k. rewrite lookup_empty. by intros [? ?].
    + done.
Qed.

Lemma storeInvariant_setActiveSheetIndex (index : nat) st :
  storeInvariant st -> (index < length (sheets st))%nat ->
  storeInvariant (setActiveSheetIndex (Z.of_nat index) st).
Proof.
  intros (H0 & Hlt & Hnil & Hsel & Hal & Hfill) Hindex.
  destruct (lookup_lt_is_Some_2 (sheets st) index Hindex) as [sheet Hsheet].
  assert (Hat : Array_at (sheets st) (Z.of_nat index) = Some sheet).
  { rewrite Array_at_in_range by lia. by rewrite Nat2Z.id. }
  rewrite (setActiveSheetIndex_resolved _ _ _ Hat).
  unfold storeInvariant, columnKeys, activeHeaders, activeSheet.
  cbn [activeSheetIndex sheets selectedColumns columnAliases].
  rewrite Hat.
  split; [lia|]. split; [lia|].
  split; [intros Hs; rewrite Hs in Hindex; cbn in Hindex; lia|].
  split; [|split].
  - intros k. apply selectAll_is_Some.
  - intros k. rewrite lookup_empty. by intros [? ?].
  - done.
Qed.

Lemma storeInvariant_toggleColumn (key : jsstring) st :
  storeInvariant st -> key ∈ columnKeys st ->
  storeInvariant (toggleColumn key st).
Proof.
  intros (H0 & Hlt & Hnil & Hsel & Hal & Hfill) Hkey.
  unfold storeInvariant.
  change (columnKeys (toggleColumn key st)) with (columnKeys st).
  cbn [toggleColumn activeSheetIndex sheets selectedColumns columnAliases].
  split; [done|]. split; [done|]. split; [done|]. split; [|done].
  intros k. rewrite lookup_insert. case_decide as Hk.
  - subst k. split; [done | by eexists].
  - apply Hsel.
Qed.

Lemma storeInvariant_setColumnAlias (key alias : jsstring) st :
  storeInvariant st -> key ∈ columnKeys st ->
  storeInvariant (setColumnAlias key alias st).
Proof.
  intros (H0 & Hlt & Hnil & Hsel & Hal & Hfill) Hkey.
  unfold storeInvariant.
  change (columnKeys (setColumnAlias key alias st)) with (columnKeys st).
  cbn [setColumnAlias activeSheetIndex sheets selectedColumns columnAliases].
  split; [done|]. split; [done|]. split; [done|]. split; [done|].
  split; [|done].
  intros k. rewrite lookup_insert. case_decide as Hk.
  - by subst k.
  - apply Hal.
Qed.

Lemma handle_keeps_storeInvariant ev c :
  storeInvariant (store c) -> storeInvariant (store (handle' ev c)).
Proof.
  intros Hinv. destruct ev; cbn [handle].
  - destruct file as [[fileName [wb|]]|]; cbn [handleFileChange store];
      [apply storeInvariant_setWorkbook | done | done].
  - destruct (hasWorkbook (store c)); [|done].
    cbn [withStore store reset]. apply storeInvariant_initial.
  - destruct (panelShown (store c)); [|done]. cbn [andb].
    destruct (Nat.ltb_spec index (length (sheets (store c)))); [|done].
    cbn [withStore store]. by apply storeInvariant_setActiveSheetIndex.
  - destruct (panelShown (store c)); [|done]. cbn [withStore store].
    exact Hinv.
  - destruct (columnKeys (store c) !! index) as [key|] eqn:Hkey; [|done].
    destruct (panelShown (store c)); [|done]. cbn [withStore store].
    apply storeInvariant_toggleColumn; [done|].
    by eapply list_elem_of_lookup_2.
  - destruct (columnKeys (store c) !! index) as [key|] eqn:Hkey; [|done].
    destruct (panelShown (store c) && _); [|done]. cbn [withStore store].
    apply storeInvariant_setColumnAlias; [done|].
    by eapply list_elem_of_lookup_2.
  - by destruct (panelShown (store c)).
  - by destruct (panelShown (store c) && _).
Qed.

Lemma handleAll_keeps_storeInvariant (evs : list (@event number)) c :
  storeInvariant (store c) -> storeInvariant (store (handleAll' evs c)).
Proof.
  revert c. induction evs as [|ev evs IH]; intros c Hinv; [done|].
  unfold handleAll in *. cbn [fold_left].
  by apply IH, handle_keeps_storeInvariant.
Qed.

(** X12.  After any run of events on the freshly mounted component: either
    no sheet is loaded, or the stored index is the position of a sheet, that
    sheet is the active one and its tab is the one drawn as active; the
    panel is shown exactly when a workbook is loaded; the Selection Map
    holds exactly the column keys of the active sheet and the Alias Map
    only such keys; every header is filled, so every column key is the
    header text followed by "::" and the position. *)
Theorem store_stays_consistent (evs : list (@event number)) :
  let st := store (handleAll' evs initialComponent) in
  ((sheets st = [] /\ activeSheet st = None /\ activeSheetIndex st = 0%Z)
   \/ (exists i sheet,
         activeSheetIndex st = Z.of_nat i
         /\ sheets st !! i = Some sheet
         /\ activeSheet st = Some sheet
         /\ forall i', tabHighlighted st i' = true <-> i' = i))
  /\ panelShown st = hasWorkbook st
  /\ (forall k, is_Some (selectedColumns st !! k) <-> k ∈ columnKeys st)
  /\ (forall k, is_Some (columnAliases st !! k) -> k ∈ columnKeys st)
  /\ (forall idx h, activeHeaders st !! idx = Some h ->
        h <> []
        /\ columnKeys st !! idx = Some (h ++ lit "::" ++ decimal idx)).
Proof.
  intros st.
  assert (Hinv : storeInvariant st).
  { apply handleAll_keeps_storeInvariant, storeInvariant_initial. }
  destruct Hinv as (H0 & Hlt & Hnil & Hsel & Hal & Hfill).
  assert (Hcase : (sheets st = [] /\ activeSheet st = None
                   /\ activeSheetIndex st = 0%Z)
     \/ (exists i sheet,
           activeSheetIndex st = Z.of_nat i
           /\ sheets st !! i = Some sheet
           /\ activeSheet st = Some sheet
           /\ forall i', tabHighlighted st i' = true <-> i' = i)).
  { destruct (sheets st) as [|s0 ss] eqn:Hs.
    - left. split; [done|]. split; [|by apply Hnil].
      by apply no_sheets_no_active.
    - right. specialize (Hlt ltac:(done)).
      destruct (lookup_lt_is_Some_2 (sheets st)
                  (Z.to_nat (activeSheetIndex st))) as [sheet Hsheet];
        [rewrite Hs; lia|].
      exists (Z.to_nat (activeSheetIndex st)), sheet.
      split; [lia|]. split; [by rewrite <- Hs|]. split.
      + unfold activeSheet. rewrite Array_at_in_range; [done|].
        rewrite Hs. lia.
      + intros i'. unfold tabHighlighted. rewrite Z.eqb_eq. lia. }
  split; [done|]. split; [|split; [done|split; [done|]]].
  - unfold panelShown, hasWorkbook.
    destruct Hcase as [(Hs & _)|(i & sheet & _ & Hi & Ha & _)].
    + by rewrite Hs.
    + rewrite Ha, bool_decide_eq_true_2 by done. apply andb_true_r.
  - intros idx h Hh. unfold activeHeaders in Hh.
    destruct (activeSheet st) as [sheet|] eqn:Ha; [|done].
    assert (Hin : sheet ∈ sheets st) by (by eapply Array_at_elem_of).
    destruct (Hfill sheet h Hin) as [Hne Ht];
      [by eapply list_elem_of_lookup_2|].
    split; [done|].
    rewrite (columnKeys_active _ _ Ha), keysOf_lookup, Hh.
    cbn [fmap option_fmap option_map].
    by rewrite (buildColumnKey_filled h idx Hne Ht).
Qed.

Lemma rowsForExport_rectangular st :
  rowsForExport' st <> [] ->
  exists width, (1 <= width)%nat
    /\ Forall (fun r => length r = width) (rowsForExport' st).
Proof.
  unfold rowsForExport. destruct (activeSheet st) as [sheet|]; [|done].
  destruct (selectedColumnIndices st) as [|i sel] eqn:Hsel; [done|].
  cbn [length Nat.eqb]. intros _. exists (S (length sel)).
  split; [lia|]. constructor; [cbn [List.map length]; by rewrite length_map|].
  apply Forall_forall. intros r Hr.
  apply list_elem_of_In, in_map_iff in Hr as [row [<- _]].
  cbn [List.map length]. by rewrite length_map.
Qed.

Lemma handle_keeps_writerInvariant ev c :
  writerInvariant c -> writerInvariant (handle' ev c).
Proof.
  intros [Hbusy Hcalls]. destruct ev; cbn [handle].
  - by destruct file as [[fileName [wb|]]|].
  - by destruct (hasWorkbook (store c)).
  - by destruct (panelShown (store c) && _).
  - by destruct (panelShown (store c)).
  - destruct (columnKeys (store c) !! index); [|done].
    by destruct (panelShown (store c)).
  - destruct (columnKeys (store c) !! index); [|done].
    by destruct (panelShown (store c) && _).
  - by destruct (panelShown (store c)).
  - destruct (panelShown (store c) && _); [|done].
    destruct (rowsForExport' (store c)) as [|hd tl] eqn:Hrows.
    + unfold handleExport. rewrite Hrows. cbn [length Nat.eqb fst snd].
      rewrite app_nil_r. by split.
    + rewrite handleExport_nonempty by (by rewrite Hrows). cbv zeta.
      split; [done|]. cbn [written snd]. intros call Hcall.
      apply elem_of_app in Hcall as [Hcall | Hcall%list_elem_of_singleton];
        [by apply Hcalls|].
      subst call. eexists _, _. split; [reflexivity|].
      split; [apply exportName_ends|].
      destruct (rowsForExport_rectangular (store c)) as (width & Hw & Hall);
        [by rewrite Hrows|].
      exists width. by rewrite Hrows in *.
Qed.

Lemma handle_written_length ev c :
  (length (written (handle' ev c)) <= S (length (written c)))%nat.
Proof.
  destruct ev; cbn [handle].
  - destruct file as [[fileName [wb|]]|]; cbn [handleFileChange written]; lia.
  - destruct (hasWorkbook (store c)); cbn [withStore written]; lia.
  - destruct (panelShown (store c) && _); cbn [withStore written]; lia.
  - destruct (panelShown (store c)); cbn [withStore written]; lia.
  - destruct (columnKeys (store c) !! index); [|lia].
    destruct (panelShown (store c)); cbn [withStore written]; lia.
  - destruct (columnKeys (store c) !! index); [|lia].
    destruct (panelShown (store c) && _); cbn [withStore written]; lia.
  - destruct (panelShown (store c)); cbn [written]; lia.
  - destruct (panelShown (store c) && _); [|lia].
    cbn [written]. rewrite length_app. unfold handleExport.
    destruct (length _ =? 0)%nat; cbn [snd length]; [lia|].
    destruct (XLSX_throws _); cbn [snd length]; lia.
Qed.

(** X14.  After any run of events the busy flag is down, and every call
    ever made to the writer was made under the sheet label "نتیجه", with a
    file name ending in ".xlsx" and a matrix that is not empty and whose
    rows all have one and the same length of at least one; there are no
    more calls than events. *)
Theorem writer_only_gets_proper_tables (evs : list (@event number)) :
  let c := handleAll' evs initialComponent in
  isExporting (ui c) = false
  /\ (forall call, call ∈ written c ->
        exists aoa filename,
          call = WriteFile (lit "نتیجه") aoa filename
          /\ endsWith filename (lit ".xlsx") = true
          /\ exists width, (1 <= width)%nat
               /\ aoa <> []
               /\ Forall (fun r => length r = width) aoa)
  /\ (length (written c) <= length evs)%nat.
Proof.
  intros c.
  assert (Hgen : forall evs0 c0, writerInvariant c0 ->
            writerInvariant (handleAll' evs0 c0)
            /\ (length (written (handleAll' evs0 c0))
                <= length (written c0) + length evs0)%nat).
  { induction evs0 as [|ev evs0 IH]; intros c0 Hinv.
    - split; [done | cbn; lia].
    - unfold handleAll in *. cbn [fold_left length].
      destruct (IH (handle' ev c0)) as [Hw Hl];
        [by apply handle_keeps_writerInvariant|].
      split; [done|].
      pose proof (handle_written_length ev c0) as Hstep.
      lia. }
  destruct (Hgen evs initialComponent) as [[Hbusy Hcalls] Hlen].
  { split; [done|]. by intros call ?%elem_of_nil. }
  split; [done|]. split; [done|]. cbn in Hlen. exact Hlen.
Qed.

End RunProperties.

(** ** The theorems on the rest of the component at concrete inputs *)

Lemma buildColumnKey_ignores_surrounding_space_witness :
  trim (lit "  ") = []
  /\ buildColumnKey (Some (lit "  ")) 1 = lit "ستون-" ++ decimal (1 + 1)
  /\ trim (lit " Name ") <> []
  /\ buildColumnKey (Some (lit " Name ")) 0
     = trim (lit " Name ") ++ lit "::" ++ decimal 0.
Proof.
  assert (Hb : trim (lit "  ") = []) by reflexivity.
  assert (Hn : trim (lit " Name ") <> []) by (vm_compute; discriminate).
  split; [exact Hb|]. split; [|split; [exact Hn|]].
  - exact (proj1 (proj2 (buildColumnKey_ignores_surrounding_space
                           (lit "  ") 1)) Hb).
  - exact (proj2 (proj2 (buildColumnKey_ignores_surrounding_space
                           (lit " Name ") 0)) Hn).
Defined.

Lemma no_sheets_nothing_to_export_witness :
  sheets (reset exampleState) = []
  /\ rowsForExport renderZ asciiLower asIs (reset exampleState) = []
  /\ panelShown (reset exampleState) = false.
Proof.
  assert (Hs : sheets (reset exampleState) = []) by reflexivity.
  pose proof (no_sheets_nothing_to_export renderZ asciiLower asIs neverThrows
                (reset exampleState) exampleUi Hs) as H.
  split; [exact Hs|]. split.
  - exact (proj1 (proj2 (proj2 (proj2 (proj2 (proj2 H)))))).
  - exact (proj1 (proj2 (proj2 (proj2 (proj2 (proj2 (proj2 (proj2 H)))))))).
Defined.

Lemma parsed_headers_are_filled_witness :
  headers (sheetOfRows renderZ (lit "Sheet1")
             [[CString (lit " Name "); CNull; CNumber 2024%Z]]) !! 1%nat
  = Some (lit "ستون 2")
  /\ lit "ستون 2" <> []
  /\ trim (lit "ستون 2") = lit "ستون 2".
Proof.
  assert (Hh : headers (sheetOfRows renderZ (lit "Sheet1")
                 [[CString (lit " Name "); CNull; CNumber 2024%Z]]) !! 1%nat
               = Some (lit "ستون 2")) by reflexivity.
  pose proof (parsed_headers_are_filled renderZ (lit "Sheet1")
                [[CString (lit " Name "); CNull; CNumber 2024%Z]]
                1%nat (lit "ستون 2") Hh) as H.
  split; [exact Hh|]. split; [exact (proj1 H) | exact (proj1 (proj2 H))].
Defined.

Lemma parsed_columns_are_keyed_by_header_witness :
  activeHeaders
    (setWorkbook (lit "book.xlsx") (readWorkbookFile renderZ exampleParsed)
       initialState) !! 2%nat = Some (lit "2024")
  /\ columnKeys
       (setWorkbook (lit "book.xlsx") (readWorkbookFile renderZ exampleParsed)
          initialState) !! 2%nat
     = Some (lit "2024" ++ lit "::" ++ decimal 2).
Proof.
  assert (Hh : activeHeaders
    (setWorkbook (lit "book.xlsx") (readWorkbookFile renderZ exampleParsed)
       initialState) !! 2%nat = Some (lit "2024")) by reflexivity.
  split; [exact Hh|].
  exact (proj1 (parsed_columns_are_keyed_by_header renderZ (lit "book.xlsx")
           (lit "Sheet1")
           [[CString (lit " Name "); CNull; CNumber 2024%Z];
            [CString (lit "Ali"); CNumber 5%Z; CBoolean true];
            [CString (lit "Reza"); CNumber 7%Z; CBoolean false]]
           [] initialState 2%nat (lit "2024") Hh)).
Defined.

Lemma load_then_export_gives_sheet_back_witness :
  rowsForExport renderZ asciiLower asIs
    (setWorkbook (lit "book.xlsx") (readWorkbookFile renderZ exampleParsed)
       initialState)
  = List.map CString
      (imap (headerOfCell renderZ)
         [CString (lit " Name "); CNull; CNumber 2024%Z])
    :: [[CString (lit "Ali"); CNumber 5%Z; CBoolean true];
        [CString (lit "Reza"); CNumber 7%Z; CBoolean false]].
Proof.
  apply (load_then_export_gives_sheet_back renderZ asciiLower asIs
           (lit "book.xlsx") (lit "Sheet1")
           [CString (lit " Name "); CNull; CNumber 2024%Z]
           [[CString (lit "Ali"); CNumber 5%Z; CBoolean true];
            [CString (lit "Reza"); CNumber 7%Z; CBoolean false]]
           [] initialState).
  - discriminate.
  - intros row Hrow.
    repeat (apply elem_of_cons in Hrow as [-> | Hrow]);
      [| | by apply elem_of_nil in Hrow];
      (split; [reflexivity|]); intros c Hc;
      repeat (apply elem_of_cons in Hc as [-> | Hc]);
      try (by apply elem_of_nil in Hc); split; discriminate.
Defined.

Lemma toggle_flips_one_column_witness :
  activeSheet exampleState = Some exampleSheet
  /\ headers exampleSheet !! 1%nat = Some []
  /\ (1%nat ∈ selectedColumnIndices
               (toggleColumn (buildColumnKey (Some []) 1) exampleState)
      <-> 1%nat ∉ selectedColumnIndices exampleState).
Proof.
  assert (Ha : activeSheet exampleState = Some exampleSheet) by reflexivity.
  assert (Hh : headers exampleSheet !! 1%nat = Some []) by reflexivity.
  split; [exact Ha|]. split; [exact Hh|].
  exact (proj1 (toggle_flips_one_column renderZ asciiLower asIs exampleState
                  exampleSheet 1 [] Ha Hh)).
Defined.

Lemma alias_renames_one_header_witness :
  activeSheet exampleState = Some exampleSheet
  /\ headers exampleSheet !! 0%nat = Some (lit "Name")
  /\ headerCell
       (setColumnAlias (buildColumnKey (Some (lit "Name")) 0) (lit " Who ")
          exampleState) 0
     = (if truthy (trim (lit " Who ")) then trim (lit " Who ")
        else if truthy (lit "Name") then lit "Name"
             else lit "ستون " ++ decimal (0 + 1)).
Proof.
  assert (Ha : activeSheet exampleState = Some exampleSheet) by reflexivity.
  assert (Hh : headers exampleSheet !! 0%nat = Some (lit "Name"))
    by reflexivity.
  split; [exact Ha|]. split; [exact Hh|].
  exact (proj1 (alias_renames_one_header renderZ asciiLower asIs exampleState
                  exampleSheet 0 (lit "Name") (lit " Who ") Ha Hh)).
Defined.

Lemma longer_search_term_narrows_rows_witness :
  trim (lit "a") <> [] /\ trim (lit "ali") <> []
  /\ occursIn (normalizeForSearch renderZ asciiLower asIs (CString (lit "a")))
       (normalizeForSearch renderZ asciiLower asIs (CString (lit "ali")))
  /\ visibleRows renderZ asciiLower asIs (setSearchTerm (lit "ali") exampleState)
     `sublist_of`
     visibleRows renderZ asciiLower asIs (setSearchTerm (lit "a") exampleState).
Proof.
  assert (H1 : trim (lit "a") <> []) by (vm_compute; discriminate).
  assert (H2 : trim (lit "ali") <> []) by (vm_compute; discriminate).
  assert (Ho : occursIn
            (normalizeForSearch renderZ asciiLower asIs (CString (lit "a")))
            (normalizeForSearch renderZ asciiLower asIs (CString (lit "ali"))))
    by (exists [], (lit "li"); reflexivity).
  split; [exact H1|]. split; [exact H2|]. split; [exact Ho|].
  exact (proj1 (longer_search_term_narrows_rows renderZ asciiLower asIs
                  exampleState (lit "a") (lit "ali") H1 H2 Ho)).
Defined.

Lemma preview_is_first_eight_rows_unfiltered_witness :
  activeSheet exampleState = Some exampleSheet
  /\ length (previewRows renderZ exampleState)
     = Nat.min 8 (length (rows exampleSheet))
  /\ previewRows renderZ (setSearchTerm (lit "ali") exampleState)
     = previewRows renderZ exampleState.
Proof.
  assert (Ha : activeSheet exampleState = Some exampleSheet) by reflexivity.
  pose proof (preview_is_first_eight_rows_unfiltered renderZ exampleState
                exampleSheet Ha) as H.
  split; [exact Ha|]. split; [exact (proj1 H)|].
  exact (proj1 (proj2 (proj2 (proj2 H))) (lit "ali")).
Defined.

Lemma handleExport_outcomes_witness :
  snd (handleExport renderZ asciiLower asIs neverThrows nothingSelectedState
         exampleUi) = []
  /\ error (fst (handleExport renderZ asciiLower asIs neverThrows
                   nothingSelectedState exampleUi))
     = Some emptyExportMessage.
Proof.
  assert (Hs : snd (handleExport renderZ asciiLower asIs neverThrows
                      nothingSelectedState exampleUi) = []) by reflexivity.
  split; [exact Hs|].
  exact (proj2 (proj1 (proj2 (proj2 (proj2
           (handleExport_outcomes renderZ asciiLower asIs neverThrows
              nothingSelectedState exampleUi)))) Hs)).
Defined.

Lemma index_from_end_shows_same_sheet_witness :
  (0 <= 1 < Z.of_nat (length (sheets exampleState)))%Z
  /\ activeSheet (setActiveSheetIndex
                    (1 - Z.of_nat (length (sheets exampleState))) exampleState)
     = activeSheet (setActiveSheetIndex 1 exampleState).
Proof.
  assert (Hj : (0 <= 1 < Z.of_nat (length (sheets exampleState)))%Z)
    by (simpl; lia).
  split; [exact Hj|].
  exact (proj1 (index_from_end_shows_same_sheet renderZ asciiLower asIs
                  exampleState 1 Hj)).
Defined.

Lemma counters_are_bounded_witness :
  1%nat ∈ selectedColumnIndices exampleState
  /\ (1 < length (columnKeys exampleState))%nat.
Proof.
  assert (Hin : 1%nat ∈ selectedColumnIndices exampleState).
  { apply list_elem_of_In. vm_compute. right. left. reflexivity. }
  split; [exact Hin|].
  exact (proj1 (proj2 (counters_are_bounded renderZ asciiLower asIs
                         exampleState)) 1%nat Hin).
Defined.

Lemma store_stays_consistent_witness :
  activeHeaders
    (store (handleAll renderZ asciiLower asIs neverThrows
              [FileChosen (Some (lit "book.xlsx", Some exampleParsed));
               CheckboxClicked 1; SearchTyped (lit "ali")]
              initialComponent)) !! 1%nat = Some (lit "ستون 2")
  /\ columnKeys
       (store (handleAll renderZ asciiLower asIs neverThrows
                 [FileChosen (Some (lit "book.xlsx", Some exampleParsed));
                  CheckboxClicked 1; SearchTyped (lit "ali")]
                 initialComponent)) !! 1%nat
     = Some (lit "ستون 2" ++ lit "::" ++ decimal 1).
Proof.
  assert (Hh : activeHeaders
    (store (handleAll renderZ asciiLower asIs neverThrows
              [FileChosen (Some (lit "book.xlsx", Some exampleParsed));
               CheckboxClicked 1; SearchTyped (lit "ali")]
              initialComponent)) !! 1%nat = Some (lit "ستون 2"))
    by reflexivity.
  split; [exact Hh|].
  exact (proj2 (proj2 (proj2 (proj2 (proj2
           (store_stays_consistent renderZ asciiLower asIs neverThrows
              [FileChosen (Some (lit "book.xlsx", Some exampleParsed));
               CheckboxClicked 1; SearchTyped (lit "ali")]))))
           1%nat (lit "ستون 2") Hh)).
Defined.

Lemma writer_only_gets_proper_tables_witness :
  WriteFile (number := Z) (lit "نتیجه")
    [[CString (lit "Name"); CString (lit "2024")];
     [CString (lit "Ali"); CBoolean true]]
    (lit "ali.xlsx")
  ∈ written (handleAll renderZ asciiLower asIs neverThrows
               [FileChosen (Some (lit "book.xlsx", Some exampleParsed));
                CheckboxClicked 1; SearchTyped (lit "ali");
                FilenameTyped (lit "ali"); ExportClicked]
               initialComponent)
  /\ exists aoa filename,
       WriteFile (number := Z) (lit "نتیجه")
         [[CString (lit "Name"); CString (lit "2024")];
          [CString (lit "Ali"); CBoolean true]]
         (lit "ali.xlsx")
       = WriteFile (number := Z) (lit "نتیجه") aoa filename
       /\ endsWith filename (lit ".xlsx") = true
       /\ exists width, (1 <= width)%nat /\ aoa <> []
            /\ Forall (fun r => length r = width) aoa.
Proof.
  assert (Hin : WriteFile (number := Z) (lit "نتیجه")
    [[CString (lit "Name"); CString (lit "2024")];
     [CString (lit "Ali"); CBoolean true]]
    (lit "ali.xlsx")
  ∈ written (handleAll renderZ asciiLower asIs neverThrows
               [FileChosen (Some (lit "book.xlsx", Some exampleParsed));
                CheckboxClicked 1; SearchTyped (lit "ali");
                FilenameTyped (lit "ali"); ExportClicked]
               initialComponent)).
  { apply list_elem_of_In. vm_compute. left. reflexivity. }
  split; [exact Hin|].
  exact (proj1 (proj2 (writer_only_gets_proper_tables renderZ asciiLower asIs
                         neverThrows _)) _ Hin).
Defined.
